(** * tx20bridge6410: the ADC sampling scheduler and the Davis 6410 wind meter

    A shallow embedding of [src/adctask.cpp], [src/adctask.h] and
    [src/davis6410.h].  The microcontroller's special function registers,
    the four file-scope variables of [adctask.cpp] and the [adctask]
    objects live in one [world]; every C++ function becomes a computation
    in a state-and-failure monad over that world.  A computation fails
    exactly where the C++ would use a pointer to an object that does not
    exist. *)

From Stdlib Require Import ZArith List Bool Lia.
From stdpp Require Import base option list gmap.

Local Open Scope Z_scope.

(** ** Machine integers and the AVR bit macros *)

(** [uint8_t] arithmetic wraps modulo 256. *)
Definition uint8 (z : Z) : Z := z mod 256.

(** [_BV(bit)] of avr-libc. *)
Definition _BV (bit : Z) : Z := Z.shiftl 1 bit.

(** [#define sbi(sfr, bit) (_SFR_BYTE(sfr) |= _BV(bit))] *)
Definition sbi (sfr bit : Z) : Z := Z.lor sfr (_BV bit).

(** [#define cbi(sfr, bit) (_SFR_BYTE(sfr) &= ~_BV(bit))] *)
Definition cbi (sfr bit : Z) : Z := Z.land sfr (Z.lnot (_BV bit)).

(** [bit_is_set(sfr, bit)] of avr-libc: [sfr & _BV(bit)] is not zero. *)
Definition bit_is_set (sfr bit : Z) : bool := negb (Z.land sfr (_BV bit) =? 0).

(** Bit positions of the ATmega328P registers the program names; they come
    from the device header of avr-libc. *)
Definition ADSC : Z := 6.
Definition ADPS0 : Z := 0.
Definition ADPS1 : Z := 1.
Definition ADPS2 : Z := 2.
Definition WGM12 : Z := 3.
Definition CS10 : Z := 0.
Definition CS11 : Z := 1.
Definition OCIE1A : Z := 1.

(** ** Constants of the header [adctask.h] *)
Module adctask_h.

Definition k_arduino_frequency : Z := 16000000.

(** "This is the frequency that timer 1 is set to run at." *)
Definition k_timer_1_frequency : Z := 5000.

(** "This is the maximum sampling rate." *)
Definition k_adc_sample_rate : Z := k_timer_1_frequency.

(** [adctask::sample_rate() const]: the same for every task. *)
Definition sample_rate : Z := k_adc_sample_rate.

End adctask_h.

(** ** The implementation file [adctask.cpp] *)
Module adctask_cpp.

Definition k_timer_1_comapre_to : Z := 7.
Definition k_timer_1_frequency : Z := 31250.
Definition k_adc_prescaler : Z := 32.
Definition k_adc_ignore_count : Z := 4.

(** The function-local [static uint8_t adc_prescale = 0] of
    [init_adc_clock_prescaler]; the function never assigns it. *)
Definition adc_prescale : Z := 0.

(** An [adctask*]. *)
Definition addr : Type := positive.

(** The registers the program touches, and the global interrupt flag that
    [cli()] and [sei()] clear and set. *)
Record mcu : Type := Mcu {
  ADMUX : Z;
  ADCSRA : Z;
  ADCH : Z;
  TCCR1A : Z;
  TCCR1B : Z;
  TCNT1 : Z;
  OCR1A : Z;
  TIMSK1 : Z;
  SREG_I : bool
}.

(** The file-scope variables of [adctask.cpp]. *)
Record globals : Type := Globals {
  current_adc_pin : Z;
  next_adc_pin : Z;
  current_adc_task : option addr;
  adc_tasks_initialised : bool
}.

(** What the instrumented program does, in the order it does it:
    [analog_read], a write to [ADMUX], [analog_trigger], the handler's
    call of [service] on a task, and [service]'s call of the filter's
    [process_sample]. *)
Inductive event : Type :=
| EvAnalogRead (sample : Z)
| EvSelectChannel (admux : Z)
| EvTrigger
| EvService (this : addr) (sample : Z)
| EvProcessSample (this : addr) (sample : Z).

(** [current_adc_task == this]; [this] is never null. *)
Definition ptr_eqb (task : option addr) (this : addr) : bool :=
  match task with
  | Some p => Pos.eqb p this
  | None => false
  end.

(** The static initialisers of the file-scope variables. *)
Definition globals_init : globals :=
  {| current_adc_pin := 255;
     next_adc_pin := 0;
     current_adc_task := None;
     adc_tasks_initialised := false |}.

Section WithFilter.

(** [filter.h] is not part of the sources: the filter is an opaque
    object with one method, [process_sample]. *)
Context {filter : Type}.
Variable process_sample : filter -> Z -> filter.

(** The members [adctask.cpp] uses.  [filter_] is [None] for
    [nullptr]; the task owns its filter. *)
Record adctask : Type := Adctask {
  filter_ : option filter;
  adc_pin_ : Z;
  ignore_count_ : Z
}.

Record world : Type := World {
  regs : mcu;
  vars : globals;
  heap : gmap addr adctask;
  log : list event
}.

(** *** Field updates *)

Definition set_regs (r : mcu) (w : world) : world :=
  {| regs := r; vars := vars w; heap := heap w; log := log w |}.
Definition set_vars (g : globals) (w : world) : world :=
  {| regs := regs w; vars := g; heap := heap w; log := log w |}.
Definition set_heap (h : gmap addr adctask) (w : world) : world :=
  {| regs := regs w; vars := vars w; heap := h; log := log w |}.
Definition set_log (l : list event) (w : world) : world :=
  {| regs := regs w; vars := vars w; heap := heap w; log := l |}.

Definition set_ADMUX (v : Z) (r : mcu) : mcu :=
  Mcu v (ADCSRA r) (ADCH r) (TCCR1A r) (TCCR1B r) (TCNT1 r) (OCR1A r) (TIMSK1 r) (SREG_I r).
Definition set_ADCSRA (v : Z) (r : mcu) : mcu :=
  Mcu (ADMUX r) v (ADCH r) (TCCR1A r) (TCCR1B r) (TCNT1 r) (OCR1A r) (TIMSK1 r) (SREG_I r).
Definition set_ADCH (v : Z) (r : mcu) : mcu :=
  Mcu (ADMUX r) (ADCSRA r) v (TCCR1A r) (TCCR1B r) (TCNT1 r) (OCR1A r) (TIMSK1 r) (SREG_I r).
Definition set_TCCR1A (v : Z) (r : mcu) : mcu :=
  Mcu (ADMUX r) (ADCSRA r) (ADCH r) v (TCCR1B r) (TCNT1 r) (OCR1A r) (TIMSK1 r) (SREG_I r).
Definition set_TCCR1B (v : Z) (r : mcu) : mcu :=
  Mcu (ADMUX r) (ADCSRA r) (ADCH r) (TCCR1A r) v (TCNT1 r) (OCR1A r) (TIMSK1 r) (SREG_I r).
Definition set_TCNT1 (v : Z) (r : mcu) : mcu :=
  Mcu (ADMUX r) (ADCSRA r) (ADCH r) (TCCR1A r) (TCCR1B r) v (OCR1A r) (TIMSK1 r) (SREG_I r).
Definition set_OCR1A (v : Z) (r : mcu) : mcu :=
  Mcu (ADMUX r) (ADCSRA r) (ADCH r) (TCCR1A r) (TCCR1B r) (TCNT1 r) v (TIMSK1 r) (SREG_I r).
Definition set_TIMSK1 (v : Z) (r : mcu) : mcu :=
  Mcu (ADMUX r) (ADCSRA r) (ADCH r) (TCCR1A r) (TCCR1B r) (TCNT1 r) (OCR1A r) v (SREG_I r).
Definition set_SREG_I (v : bool) (r : mcu) : mcu :=
  Mcu (ADMUX r) (ADCSRA r) (ADCH r) (TCCR1A r) (TCCR1B r) (TCNT1 r) (OCR1A r) (TIMSK1 r) v.

Definition set_current_adc_pin (v : Z) (g : globals) : globals :=
  Globals v (next_adc_pin g) (current_adc_task g) (adc_tasks_initialised g).
Definition set_next_adc_pin (v : Z) (g : globals) : globals :=
  Globals (current_adc_pin g) v (current_adc_task g) (adc_tasks_initialised g).
Definition set_current_adc_task (v : option addr) (g : globals) : globals :=
  Globals (current_adc_pin g) (next_adc_pin g) v (adc_tasks_initialised g).
Definition set_adc_tasks_initialised (v : bool) (g : globals) : globals :=
  Globals (current_adc_pin g) (next_adc_pin g) (current_adc_task g) v.

Definition set_ignore_count_ (v : Z) (t : adctask) : adctask :=
  Adctask (filter_ t) (adc_pin_ t) v.
Definition set_filter_ (v : option filter) (t : adctask) : adctask :=
  Adctask v (adc_pin_ t) (ignore_count_ t).

(** *** The monad *)

Definition M (A : Type) : Type := world -> option (A * world).

Definition ret {A} (a : A) : M A := fun w => Some (a, w).

Definition bind {A B} (c : M A) (k : A -> M B) : M B :=
  fun w => match c w with
           | Some (a, w') => k a w'
           | None => None
           end.

Notation "'let*' x ':=' c 'in' k" := (bind c (fun x => k))
  (at level 10, x name, c at level 100, k at level 200).
Notation "c '>>' k" := (bind c (fun _ => k))
  (at level 80, right associativity).

Definition gets {A} (f : world -> A) : M A := fun w => Some (f w, w).
Definition modify (f : world -> world) : M unit := fun w => Some (tt, f w).

Definition modify_regs (f : mcu -> mcu) : M unit :=
  modify (fun w => set_regs (f (regs w)) w).
Definition modify_vars (f : globals -> globals) : M unit :=
  modify (fun w => set_vars (f (vars w)) w).
Definition emit (e : event) : M unit :=
  modify (fun w => set_log (log w ++ [e]) w).

(** Reading and writing through an [adctask*]; both fail on a pointer
    to no object. *)
Definition load (p : addr) : M adctask :=
  fun w => match heap w !! p with
           | Some t => Some (t, w)
           | None => None
           end.
Definition update (p : addr) (f : adctask -> adctask) : M unit :=
  fun w => match heap w !! p with
           | Some t => Some (tt, set_heap (<[p := f t]> (heap w)) w)
           | None => None
           end.

(** The result of a computation that returns nothing. *)
Definition exec (c : M unit) (w : world) : option world :=
  match c w with
  | Some (_, w') => Some w'
  | None => None
  end.

(** *** The functions of [adctask.cpp] *)

Definition cli : M unit := modify_regs (set_SREG_I false).
Definition sei : M unit := modify_regs (set_SREG_I true).

Definition analog_trigger : M unit :=
  modify_regs (fun r => set_ADCSRA (sbi (ADCSRA r) ADSC) r) >>
  emit EvTrigger.

Definition analog_ready : M bool :=
  gets (fun w => negb (bit_is_set (ADCSRA (regs w)) ADSC)).

Definition analog_read : M Z :=
  let* v := gets (fun w => ADCH (regs w)) in
  emit (EvAnalogRead v) >>
  ret v.

(** [adctask::service] *)
Definition service (this : addr) (sample : Z) : M unit :=
  let* t := load this in
  if negb (ignore_count_ t =? 0) then
    update this (set_ignore_count_ (uint8 (ignore_count_ t - 1)))
  else
    match filter_ t with
    | Some f =>
        emit (EvProcessSample this sample) >>
        update this (set_filter_ (Some (process_sample f sample)))
    | None => ret tt
    end.

(** [ISR(TIMER1_COMPA_vect)] *)
Definition TIMER1_COMPA_vect : M unit :=
  let* ready := analog_ready in
  if negb ready then ret tt else
  let* sample := analog_read in
  let* next := gets (fun w => next_adc_pin (vars w)) in
  let* current := gets (fun w => current_adc_pin (vars w)) in
  (if negb (next =? current) then
     let admux := Z.lor (Z.lor (Z.shiftl 1 6) (Z.shiftl 1 5)) (Z.land next 7) in
     modify_regs (set_ADMUX admux) >>
     emit (EvSelectChannel admux) >>
     modify_vars (set_current_adc_pin next)
   else ret tt) >>
  analog_trigger >>
  let* task := gets (fun w => current_adc_task (vars w)) in
  match task with
  | Some p => emit (EvService p sample) >> service p sample
  | None => ret tt
  end.

(** [init_adc_clock_prescaler]: the three prescaler bits of [ADCSRA]. *)
Definition init_adc_clock_prescaler (value : Z) : M unit :=
  if value =? adc_prescale then ret tt else
  let bits (b0 b1 b2 : bool) : M unit :=
    modify_regs (fun r =>
      let a0 := (if b0 then sbi else cbi) (ADCSRA r) ADPS0 in
      let a1 := (if b1 then sbi else cbi) a0 ADPS1 in
      let a2 := (if b2 then sbi else cbi) a1 ADPS2 in
      set_ADCSRA a2 r) in
  if value =? 2 then bits true false false
  else if value =? 4 then bits false true false
  else if value =? 8 then bits true true false
  else if value =? 16 then bits false false true
  else if value =? 32 then bits true false true
  else if value =? 64 then bits false true true
  else bits true true true.

(** [initialise_timer_and_adc] *)
Definition initialise_timer_and_adc : M unit :=
  modify_regs (set_TCCR1A 0) >>
  modify_regs (set_TCCR1B 0) >>
  modify_regs (set_TCNT1 0) >>
  modify_regs (set_OCR1A k_timer_1_comapre_to) >>
  modify_regs (fun r => set_TCCR1B (Z.lor (TCCR1B r) (Z.shiftl 1 WGM12)) r) >>
  modify_regs (fun r => set_TCCR1B
    (Z.lor (TCCR1B r) (Z.lor (Z.shiftl 1 CS11) (Z.shiftl 1 CS10))) r) >>
  modify_regs (fun r => set_TIMSK1 (Z.lor (TIMSK1 r) (Z.shiftl 1 OCIE1A)) r) >>
  init_adc_clock_prescaler k_adc_prescaler.

(** [init_adc_tasks] *)
Definition init_adc_tasks : M unit :=
  let* done := gets (fun w => adc_tasks_initialised (vars w)) in
  if done then ret tt else
  initialise_timer_and_adc >>
  analog_trigger >>
  modify_vars (set_adc_tasks_initialised true).

(** The constructor [adctask::adctask(filter*, uint8_t)].  It does not
    initialise [ignore_count_]; [ignore0] is whatever the member holds. *)
Definition adctask_ctor (sample_filter : option filter) (adc_pin ignore0 : Z)
  : adctask :=
  {| filter_ := sample_filter;
     adc_pin_ := uint8 adc_pin;
     ignore_count_ := uint8 ignore0 |}.

(** [adctask::start_task] *)
Definition start_task (this : addr) : M unit :=
  cli >>
  init_adc_tasks >>
  let* t := load this in
  modify_vars (set_next_adc_pin (adc_pin_ t)) >>
  update this (set_ignore_count_ k_adc_ignore_count) >>
  let* task := gets (fun w => current_adc_task (vars w)) in
  (if negb (ptr_eqb task this)
   then modify_vars (set_current_adc_task (Some this))
   else ret tt) >>
  analog_trigger >>
  sei.

(** [adctask::stop_task] *)
Definition stop_task (this : addr) : M unit :=
  let* task := gets (fun w => current_adc_task (vars w)) in
  if ptr_eqb task this then
    cli >>
    modify_vars (set_current_adc_task None) >>
    sei
  else ret tt.

(** *** The converter and the program's callers *)

(** The converter finishing the conversion in flight: it clears [ADSC]
    and latches the result in [ADCH].  [result] gives the byte the
    converter produces under a given [ADMUX] configuration. *)
Definition conversion_complete (result : Z -> Z) : M unit :=
  let* busy := gets (fun w => bit_is_set (ADCSRA (regs w)) ADSC) in
  if busy then
    modify_regs (fun r =>
      set_ADCH (uint8 (result (ADMUX r))) (set_ADCSRA (cbi (ADCSRA r) ADSC) r))
  else ret tt.

(** One thing that happens to the scheduler: a task starts or stops,
    timer 1 fires, or the converter finishes. *)
Inductive op : Type :=
| OpStart (this : addr)
| OpStop (this : addr)
| OpTick
| OpConversion (result : Z -> Z).

Definition step (o : op) : M unit :=
  match o with
  | OpStart p => start_task p
  | OpStop p => stop_task p
  | OpTick => TIMER1_COMPA_vect
  | OpConversion result => conversion_complete result
  end.

Fixpoint run (ops : list op) (w : world) : option world :=
  match ops with
  | [] => Some w
  | o :: rest =>
      match exec (step o) w with
      | Some w' => run rest w'
      | None => None
      end
  end.

(** Samples handed to one task's [service], one call after the other. *)
Fixpoint deliver (this : addr) (samples : list Z) (w : world) : option world :=
  match samples with
  | [] => Some w
  | s :: rest =>
      match exec (service this s) w with
      | Some w' => deliver this rest w'
      | None => None
      end
  end.

(** The world at power-on: the static initialisers, an empty log, and
    whatever the registers and the constructed tasks are. *)
Definition power_on (r : mcu) (objs : gmap addr adctask) : world :=
  {| regs := r; vars := globals_init; heap := objs; log := [] |}.

(** *** Construction and destruction *)

(** The end of an object's storage; it fails on a pointer to no object. *)
Definition release (p : addr) : M unit :=
  fun w => match heap w !! p with
           | Some _ => Some (tt, set_heap (delete p (heap w)) w)
           | None => None
           end.

(** The destructor [adctask::~adctask]: [stop_task()], then
    [if (filter_) delete filter_], then the object is gone. *)
Definition adctask_dtor (this : addr) : M unit :=
  stop_task this >>
  let* t := load this in
  (match filter_ t with
   | Some _ => update this (set_filter_ None)
   | None => ret tt
   end) >>
  release this.

(** [new adctask(sample_filter, adc_pin)] giving the address [p]; an
    allocation never gives the address of an object that exists. *)
Definition adctask_new (p : addr) (sample_filter : option filter) (adc_pin ignore0 : Z)
  : M unit :=
  fun w => match heap w !! p with
           | Some _ => None
           | None =>
               Some (tt, set_heap (<[p := adctask_ctor sample_filter adc_pin ignore0]>
                                     (heap w)) w)
           end.

(** A step of the scheduler, or a task being constructed or destroyed. *)
Inductive lifecycle : Type :=
| LNew (p : addr) (sample_filter : option filter) (adc_pin ignore0 : Z)
| LDelete (p : addr)
| LStep (o : op).

Definition lstep (l : lifecycle) : M unit :=
  match l with
  | LNew p sample_filter adc_pin ignore0 => adctask_new p sample_filter adc_pin ignore0
  | LDelete p => adctask_dtor p
  | LStep o => step o
  end.

Fixpoint lrun (ls : list lifecycle) (w : world) : option world :=
  match ls with
  | [] => Some w
  | l :: rest =>
      match exec (lstep l) w with
      | Some w' => lrun rest w'
      | None => None
      end
  end.

(** One conversion finishing and the tick that follows it, for each of
    the converter's results in turn. *)
Definition rounds (results : list (Z -> Z)) : list op :=
  flat_map (fun result => [OpConversion result; OpTick]) results.

(** *** Observations

    What the theorems are stated with: counts over the log, and closed
    forms of what a tick and a run of [service] calls leave behind,
    each shown below to be what the functions above compute. *)

Definition is_service_of (p : addr) (e : event) : bool :=
  match e with
  | EvService q _ => Pos.eqb p q
  | _ => false
  end.

(** How many times [service] was called on the task at [p]. *)
Definition service_count (p : addr) (l : list event) : nat :=
  length (List.filter (is_service_of p) l).

Definition active (w : world) (p : addr) : Prop :=
  current_adc_task (vars w) = Some p.

(** The registered task, if any, exists. *)
Definition registration_live (w : world) : Prop :=
  forall p, current_adc_task (vars w) = Some p -> is_Some (heap w !! p).

(** The events of [process_sample] calls for the samples [l]. *)
Definition forwarded_events (this : addr) (t : adctask) (l : list Z) : list event :=
  match filter_ t with
  | Some _ => map (EvProcessSample this) l
  | None => []
  end.

(** The task [t] after [service] saw [samples], when all went well. *)
Definition serviced (t : adctask) (samples : list Z) : adctask :=
  let n := Z.to_nat (ignore_count_ t) in
  {| filter_ := fold_left process_sample (skipn n samples) <$> filter_ t;
     adc_pin_ := adc_pin_ t;
     ignore_count_ := ignore_count_ t - Z.min (ignore_count_ t) (Z.of_nat (length samples)) |}.

(** The value the handler writes to [ADMUX] for a requested pin. *)
Definition admux_for (pin : Z) : Z :=
  Z.lor (Z.lor (Z.shiftl 1 6) (Z.shiftl 1 5)) (Z.land pin 7).

(** The world when the handler reaches the dispatch: sample read, channel
    switched if asked for, next conversion triggered. *)
Definition before_dispatch (w : world) : world :=
  let sample := ADCH (regs w) in
  let next := next_adc_pin (vars w) in
  let switch := negb (next =? current_adc_pin (vars w)) in
  {| regs := set_ADCSRA (sbi (ADCSRA (regs w)) ADSC)
               (if switch then set_ADMUX (admux_for next) (regs w) else regs w);
     vars := if switch then set_current_adc_pin next (vars w) else vars w;
     heap := heap w;
     log := log w ++ [EvAnalogRead sample]
              ++ (if switch then [EvSelectChannel (admux_for next)] else [])
              ++ [EvTrigger] |}.

(** What the dispatch at the end of a tick adds to the log: the call of
    [service] on the registered task and, when that task's countdown is
    over and it has a filter, the filter's [process_sample]. *)
Definition dispatch_events (w : world) : list event :=
  match current_adc_task (vars w) with
  | Some p =>
      EvService p (ADCH (regs w)) ::
      match heap w !! p with
      | Some t =>
          if ignore_count_ t =? 0
          then forwarded_events p t [ADCH (regs w)]
          else []
      | None => []
      end
  | None => []
  end.

(** [ADMUX] holds what the handler wrote for the current pin, unless the
    handler has not switched channels since [w0]. *)
Definition admux_tracks_current (w0 w : world) : Prop :=
  ADMUX (regs w) = admux_for (current_adc_pin (vars w)) \/
  (ADMUX (regs w) = ADMUX (regs w0) /\
   current_adc_pin (vars w) = current_adc_pin (vars w0)).

(** The three [sbi]/[cbi] of one [case] of [init_adc_clock_prescaler]. *)
Definition prescaler_bits (b0 b1 b2 : bool) (adcsra : Z) : Z :=
  (if b2 then sbi else cbi)
    ((if b1 then sbi else cbi) ((if b0 then sbi else cbi) adcsra ADPS0) ADPS1) ADPS2.

(** The timer registers and every bit of [ADCSRA] but [ADSC] agree. *)
Definition same_configuration (r r' : mcu) : Prop :=
  TCCR1A r' = TCCR1A r /\ TCCR1B r' = TCCR1B r /\ TCNT1 r' = TCNT1 r /\
  OCR1A r' = OCR1A r /\ TIMSK1 r' = TIMSK1 r /\
  Z.land (ADCSRA r') (Z.lnot (_BV ADSC)) = Z.land (ADCSRA r) (Z.lnot (_BV ADSC)).

(** The registered task's countdown is one [start_task] set and [service]
    counted down: between 0 and [k_adc_ignore_count]. *)
Definition countdown_armed (w : world) : Prop :=
  forall p t, current_adc_task (vars w) = Some p -> heap w !! p = Some t ->
              0 <= ignore_count_ t <= k_adc_ignore_count.

(** The samples of a series of [rounds]: the first conversion ran under
    the [ADMUX] value [admux0] found at the start, the later ones under
    [admux]. *)
Definition round_samples (admux0 admux : Z) (results : list (Z -> Z)) : list Z :=
  match results with
  | [] => []
  | result :: rest => uint8 (result admux0) :: map (fun r => uint8 (r admux)) rest
  end.

End WithFilter.

Arguments adctask : clear implicits.
Arguments world : clear implicits.
Arguments M : clear implicits.
Arguments lifecycle : clear implicits.

End adctask_cpp.

(** ** The wind meter interface [davis6410.h] *)
Module davis6410_h.

Definition k_wind_speed_sample_t : Z := 2250.

Inductive davis6410state : Type :=
| idle
| new_sample
| sampling_speed
| sampling_direction
| send_frame.

Definition davis6410state_eqb (a b : davis6410state) : bool :=
  match a, b with
  | idle, idle | new_sample, new_sample | sampling_speed, sampling_speed
  | sampling_direction, sampling_direction | send_frame, send_frame => true
  | _, _ => false
  end.

(** The data members of [class davis6410].  A [windsamplefn] and a
    [void*] are addresses, [None] for [nullptr]. *)
Record davis6410 : Type := Davis6410 {
  wind_speed_pin_ : Z;
  wind_vane_pin_ : Z;
  sample_period_ : Z;
  initialised_ : bool;
  state_ : davis6410state;
  sample_start_time_ : Z;
  sample_pulse_count_ : Z;
  sample_direction_ : Z;
  sample_fn_ : option positive;
  context_ : option positive
}.

(** The wind meter together with the pulse counter it relies on, which
    counts the anemometer's edges on its own. *)
Record station : Type := Station {
  meter : davis6410;
  pulse_counter : Z
}.

(** [davis6410::state()] *)
Definition state (d : davis6410) : davis6410state := state_ d.

(** Modelled from the spec: the body of [davis6410::start_sample], which
    the header only declares.  Section 4.4: "if another sample is already
    in progress, fail (return false) without disturbing the in-progress
    one; otherwise record the callback/context, reset the pulse counter,
    record the current timestamp as the window start, transition to
    counting-speed [...], and return true."  [now] is the timestamp the
    call reads. *)
Definition start_sample (fn context : option positive) (now : Z) (s : station)
  : bool * station :=
  if negb (davis6410state_eqb (state_ (meter s)) idle) then (false, s)
  else
    let d := meter s in
    (true,
     {| meter :=
          {| wind_speed_pin_ := wind_speed_pin_ d;
             wind_vane_pin_ := wind_vane_pin_ d;
             sample_period_ := sample_period_ d;
             initialised_ := initialised_ d;
             state_ := sampling_speed;
             sample_start_time_ := now;
             sample_pulse_count_ := sample_pulse_count_ d;
             sample_direction_ := sample_direction_ d;
             sample_fn_ := fn;
             context_ := context |};
        pulse_counter := 0 |}).

(** A station to try [start_sample] on, in a given state. *)
Definition station_example (st : davis6410state) : station :=
  {| meter := Davis6410 2 14 2250 true st 1000 3 77 (Some 5%positive) None;
     pulse_counter := 3 |}.

End davis6410_h.

(** ** Example worlds *)
Module examples.
Import adctask_cpp.

(** A filter that keeps every sample it is given, oldest first. *)
Definition record_sample (seen : list Z) (sample : Z) : list Z := seen ++ [sample].

(** Every register at zero and interrupts off. *)
Definition mcu_reset : mcu := Mcu 0 0 0 0 0 0 0 0 false.

Definition vane : addr := 1%positive.
Definition spare : addr := 2%positive.

(** Two tasks: one with a recording filter on pin 3, one without a filter
    on pin 9. *)
Definition objects : gmap addr (adctask (list Z)) :=
  <[spare := adctask_ctor None 9 0]> {[ vane := adctask_ctor (Some []) 3 0 ]}.

Definition boot : world (list Z) := power_on mcu_reset objects.

(** The vane task registered and settled, on pin 3, with a finished
    conversion of value 200 waiting. *)
Definition vane_ready : world (list Z) :=
  {| regs := Mcu 99 133 200 0 11 0 7 2 true;
     vars := Globals 3 3 (Some vane) true;
     heap := objects;
     log := [] |}.

(** The same with the conversion still in flight. *)
Definition vane_busy : world (list Z) :=
  {| regs := Mcu 99 197 200 0 11 0 7 2 true;
     vars := Globals 3 3 (Some vane) true;
     heap := objects;
     log := [] |}.

(** The first and only task is constructed with pin 255. *)
Definition boot_pin_255 : world (list Z) :=
  power_on mcu_reset {[ vane := adctask_ctor None 255 0 ]}.

(** Tasks constructed and destroyed while the scheduler runs: a task on
    pin 5 with some value in its uninitialised countdown is started and
    serviced, a second one on pin 2 displaces it, the first is destroyed,
    and the second is serviced. *)
Definition coming_and_going : list (lifecycle (list Z)) :=
  [LNew 3%positive (Some []) 5 200;
   LStep (OpStart 3%positive);
   LStep (OpConversion (fun _ => 7));
   LStep OpTick;
   LNew 4%positive None 2 99;
   LStep (OpStart 4%positive);
   LDelete 3%positive;
   LStep (OpConversion (fun _ => 8));
   LStep OpTick].

(** Six conversions whose result is the [ADMUX] value they ran under plus
    a round number. *)
Definition six_results : list (Z -> Z) :=
  [fun admux => admux + 1; fun admux => admux + 2; fun admux => admux + 3;
   fun admux => admux + 4; fun admux => admux + 5; fun admux => admux + 6].

End examples.

(** * Properties *)

(** ** The timer frequency constants *)

(** C8: the implementation file's [k_timer_1_frequency] is 31250, which is
    16000000 / (64 * (k_timer_1_comapre_to + 1)) for the compare value 7;
    the header's [k_timer_1_frequency] is 5000 and [k_adc_sample_rate] is
    equal to it; the two frequencies differ. *)
Theorem timer_frequency_constants_disagree :
  adctask_cpp.k_timer_1_frequency = 31250 /\
  adctask_cpp.k_timer_1_comapre_to = 7 /\
  adctask_cpp.k_timer_1_frequency =
    adctask_h.k_arduino_frequency / (64 * (adctask_cpp.k_timer_1_comapre_to + 1)) /\
  adctask_h.k_timer_1_frequency = 5000 /\
  adctask_h.k_adc_sample_rate = adctask_h.k_timer_1_frequency /\
  adctask_cpp.k_timer_1_frequency <> adctask_h.k_timer_1_frequency.
Proof.
  repeat split; try reflexivity.
  unfold adctask_cpp.k_timer_1_frequency, adctask_h.k_timer_1_frequency; lia.
Qed.

(** ** The wind meter *)

Section davis6410_proofs.
Import davis6410_h.

Lemma davis6410state_eqb_eq (a b : davis6410state) :
  davis6410state_eqb a b = true <-> a = b.
Proof. destruct a, b; simpl; split; intros H; try reflexivity; discriminate H. Qed.

(** C7: in every state other than [idle], [start_sample] returns false
    and changes nothing: not the pulse counter, not the window start
    time, not the callback, nor anything else of the sample in progress.
    From [idle] it records callback and context, resets the pulse
    counter, records the window start, goes to [sampling_speed] and
    returns true. *)
Theorem start_sample_rejected_unless_idle
    (fn context : option positive) (now : Z) (s : station) :
  (state (meter s) <> idle -> start_sample fn context now s = (false, s)) /\
  (state (meter s) = idle ->
     let r := start_sample fn context now s in
     fst r = true /\
     sample_fn_ (meter (snd r)) = fn /\
     context_ (meter (snd r)) = context /\
     pulse_counter (snd r) = 0 /\
     sample_start_time_ (meter (snd r)) = now /\
     state (meter (snd r)) = sampling_speed).
Proof.
  unfold start_sample, state. split.
  - intros Hbusy.
    destruct (davis6410state_eqb (state_ (meter s)) idle) eqn:E; [|reflexivity].
    apply davis6410state_eqb_eq in E. contradiction.
  - intros Hidle. rewrite Hidle. simpl. repeat split.
Qed.

Lemma start_sample_rejected_unless_idle_witness :
  start_sample (Some 9%positive) None 5000 (station_example sampling_direction)
    = (false, station_example sampling_direction) /\
  fst (start_sample (Some 9%positive) None 5000 (station_example idle)) = true.
Proof.
  split.
  - apply (proj1 (start_sample_rejected_unless_idle
                    (Some 9%positive) None 5000 (station_example sampling_direction))).
    simpl. discriminate.
  - apply (proj2 (start_sample_rejected_unless_idle
                    (Some 9%positive) None 5000 (station_example idle))).
    reflexivity.
Defined.

End davis6410_proofs.

(** ** The sampling scheduler *)

Section adctask_proofs.
Import adctask_cpp.

Context {filter : Type}.
Variable process_sample : filter -> Z -> filter.

Abbreviation world := (world filter).
Abbreviation isr := (TIMER1_COMPA_vect process_sample).
Abbreviation service := (service process_sample).
Abbreviation deliver := (deliver process_sample).
Abbreviation run := (run process_sample).
Abbreviation serviced := (serviced process_sample).
Abbreviation lrun := (lrun process_sample).

Lemma ptr_eqb_true (task : option addr) (this : addr) :
  ptr_eqb task this = true <-> task = Some this.
Proof.
  destruct task as [p|]; simpl.
  - rewrite Pos.eqb_eq. split; [intros ->; reflexivity | intros [= ->]; reflexivity].
  - split; discriminate.
Qed.

Lemma ptr_eqb_false (task : option addr) (this : addr) :
  ptr_eqb task this = false <-> task <> Some this.
Proof.
  rewrite <- ptr_eqb_true. destruct (ptr_eqb task this); split; congruence.
Qed.

(** *** The tick while the converter is busy *)

Lemma tick_busy (w : world) :
  bit_is_set (ADCSRA (regs w)) ADSC = true ->
  isr w = Some (tt, w).
Proof.
  intros Hbusy.
  unfold TIMER1_COMPA_vect, bind, analog_ready, gets.
  rewrite Hbusy. reflexivity.
Qed.

(** C6: on a timer tick where the conversion is not ready ([ADSC] still
    set) the handler does nothing and returns normally: the world after it
    is the world before it, so the channels, the registered task, the
    registers and every task are unchanged, and the log has not grown: no
    sample was read, no conversion triggered, no task serviced. *)
Theorem tick_while_busy_does_nothing (w : world) :
  analog_ready w = Some (false, w) ->
  isr w = Some (tt, w) /\
  exec isr w = Some w /\
  run [OpTick] w = Some w.
Proof.
  intros Hready. unfold analog_ready, gets in Hready.
  assert (Hbusy : bit_is_set (ADCSRA (regs w)) ADSC = true).
  { injection Hready as H. apply negb_false_iff in H. exact H. }
  pose proof (tick_busy w Hbusy) as H.
  split; [exact H|]. split.
  - unfold exec. rewrite H. reflexivity.
  - simpl. unfold exec. rewrite H. reflexivity.
Qed.

(** *** Stopping a task *)

Lemma stop_task_holder (this : addr) (w : world) :
  current_adc_task (vars w) = Some this ->
  exec (stop_task this) w =
    Some (set_regs (set_SREG_I true (regs w))
            (set_vars (set_current_adc_task None (vars w)) w)).
Proof.
  intros H. apply ptr_eqb_true in H.
  unfold exec, stop_task, bind, gets. rewrite H.
  destruct w as [r g h l]; destruct r; reflexivity.
Qed.

Lemma stop_task_stale (this : addr) (w : world) :
  current_adc_task (vars w) <> Some this ->
  exec (stop_task this) w = Some w.
Proof.
  intros H. apply ptr_eqb_false in H.
  unfold exec, stop_task, bind, gets. rewrite H. reflexivity.
Qed.

Lemma stop_task_clears_or_not (this : addr) (w : world) :
  exec (stop_task this) w =
    Some (set_regs (set_SREG_I true (regs w))
            (set_vars (set_current_adc_task None (vars w)) w)) \/
  exec (stop_task this) w = Some w.
Proof.
  destruct (decide (current_adc_task (vars w) = Some this)) as [Hh|Hs].
  - left. apply stop_task_holder. exact Hh.
  - right. apply stop_task_stale. exact Hs.
Qed.


(** C4: [stop_task] clears the registration if and only if the task is
    still the registered one.  A task that is not registered any more
    (another one displaced it) leaves the whole world as it is, the
    newer registration included; the holder's stop empties the slot and
    leaves channels, initialisation flag, tasks and log alone. *)
Theorem stop_task_clears_only_own_registration (this : addr) (w : world) :
  exists w',
    exec (stop_task this) w = Some w' /\
    (current_adc_task (vars w) = Some this ->
       current_adc_task (vars w') = None /\
       current_adc_pin (vars w') = current_adc_pin (vars w) /\
       next_adc_pin (vars w') = next_adc_pin (vars w) /\
       adc_tasks_initialised (vars w') = adc_tasks_initialised (vars w) /\
       heap w' = heap w /\ log w' = log w) /\
    (current_adc_task (vars w) <> Some this -> w' = w) /\
    (current_adc_task (vars w') <> current_adc_task (vars w) <->
       current_adc_task (vars w) = Some this).
Proof.
  destruct (decide (current_adc_task (vars w) = Some this)) as [Hh|Hs].
  - eexists. split; [apply stop_task_holder; exact Hh|].
    split; [|split].
    + intros _. simpl. repeat split.
    + intros Hn. contradiction.
    + simpl. rewrite Hh. split; [reflexivity | discriminate].
  - exists w. split; [apply stop_task_stale; exact Hs|].
    split; [|split].
    + intros Hh. contradiction.
    + reflexivity.
    + split; [intros Hn; contradiction | intros Hh; contradiction].
Qed.

(** C5: stopping the same task twice in a row is safe, and the second
    stop changes nothing: the world after it, and so the registered
    task, the current and the requested channel and the initialisation
    flag, is the world after the first stop. *)
Theorem stop_task_twice (this : addr) (w : world) :
  exists w1,
    exec (stop_task this) w = Some w1 /\
    exec (stop_task this) w1 = Some w1 /\
    run [OpStop this; OpStop this] w = Some w1.
Proof.
  assert (Hex : exists w1, exec (stop_task this) w = Some w1 /\
                           current_adc_task (vars w1) <> Some this).
  { destruct (decide (current_adc_task (vars w) = Some this)) as [Hh|Hs].
    - eexists. split; [apply stop_task_holder; exact Hh|]. simpl. discriminate.
    - exists w. split; [apply stop_task_stale; exact Hs | exact Hs]. }
  destruct Hex as (w1 & H1 & Hfree).
  exists w1. split; [exact H1|].
  pose proof (stop_task_stale this w1 Hfree) as H2.
  split; [exact H2|].
  simpl. rewrite H1, H2. reflexivity.
Qed.

(** *** Servicing a task: the settle countdown and the filter *)

Lemma uint8_pred (n : Z) : 0 < n < 256 -> uint8 (n - 1) = n - 1.
Proof. intros H. unfold uint8. apply Z.mod_small. lia. Qed.

Lemma service_counting (this : addr) (sample : Z) (w : world) (t : adctask filter) :
  heap w !! this = Some t ->
  ignore_count_ t <> 0 ->
  service this sample w =
    Some (tt, set_heap
                (<[this := set_ignore_count_ (uint8 (ignore_count_ t - 1)) t]> (heap w)) w).
Proof.
  intros Hl Hn. unfold adctask_cpp.service, bind, load, update. rewrite Hl.
  apply Z.eqb_neq in Hn. rewrite Hn. simpl. rewrite Hl. reflexivity.
Qed.

Lemma service_forwarding (this : addr) (sample : Z) (w : world) (t : adctask filter)
    (f : filter) :
  heap w !! this = Some t ->
  ignore_count_ t = 0 ->
  filter_ t = Some f ->
  service this sample w =
    Some (tt, set_heap
                (<[this := set_filter_ (Some (process_sample f sample)) t]> (heap w))
                (set_log (log w ++ [EvProcessSample this sample]) w)).
Proof.
  intros Hl Hz Hf. unfold adctask_cpp.service, bind, load, update, emit, modify.
  rewrite Hl, Hz, Hf. simpl. rewrite Hl. reflexivity.
Qed.

Lemma service_dropping (this : addr) (sample : Z) (w : world) (t : adctask filter) :
  heap w !! this = Some t ->
  ignore_count_ t = 0 ->
  filter_ t = None ->
  service this sample w = Some (tt, w).
Proof.
  intros Hl Hz Hf. unfold adctask_cpp.service, bind, load.
  rewrite Hl, Hz, Hf. reflexivity.
Qed.

Lemma deliver_spec (this : addr) (samples : list Z) :
  forall (w : world) (t : adctask filter),
    heap w !! this = Some t ->
    0 <= ignore_count_ t < 256 ->
    exists w',
      deliver this samples w = Some w' /\
      regs w' = regs w /\ vars w' = vars w /\
      heap w' !! this = Some (serviced t samples) /\
      (forall q, q <> this -> heap w' !! q = heap w !! q) /\
      log w' = log w ++
               forwarded_events this t (skipn (Z.to_nat (ignore_count_ t)) samples).
Proof.
  induction samples as [|s rest IH]; intros w t Hl Hr.
  - exists w. simpl. repeat split; auto.
    + rewrite Hl. f_equal. unfold serviced. destruct t as [fl pin ic]; simpl in *.
      rewrite skipn_nil. destruct fl; simpl; f_equal; lia.
    + unfold forwarded_events. rewrite skipn_nil.
      destruct (filter_ t); simpl; rewrite app_nil_r; reflexivity.
  - destruct (Z.eq_dec (ignore_count_ t) 0) as [Hz|Hn].
    + destruct (filter_ t) as [f|] eqn:Hf.
      * pose proof (service_forwarding this s w t f Hl Hz Hf) as Hs.
        set (t1 := set_filter_ (Some (process_sample f s)) t) in *.
        match type of Hs with _ = Some (tt, ?x) => set (w1 := x) in * end.
        destruct (IH w1 t1) as (w' & Hd & Hregs & Hvars & Hme & Hoth & Hlog).
        { subst w1. simpl. apply lookup_insert_eq. }
        { subst t1. simpl. lia. }
        exists w'. simpl. unfold exec. rewrite Hs.
        split; [exact Hd|]. split; [exact Hregs|]. split; [exact Hvars|].
        split; [|split].
        -- rewrite Hme. f_equal. unfold serviced. subst t1. simpl.
           rewrite Hz, Hf. simpl. f_equal. lia.
        -- intros q Hq. rewrite (Hoth q Hq). subst w1. simpl.
           apply lookup_insert_ne. congruence.
        -- rewrite Hlog. subst w1 t1. unfold forwarded_events. simpl.
           rewrite Hz, Hf. simpl. rewrite <- app_assoc. reflexivity.
      * pose proof (service_dropping this s w t Hl Hz Hf) as Hs.
        destruct (IH w t Hl Hr) as (w' & Hd & Hregs & Hvars & Hme & Hoth & Hlog).
        exists w'. simpl. unfold exec. rewrite Hs.
        split; [exact Hd|]. split; [exact Hregs|]. split; [exact Hvars|].
        split; [|split].
        -- rewrite Hme. f_equal. unfold serviced. rewrite Hz, Hf. simpl.
           f_equal. lia.
        -- exact Hoth.
        -- rewrite Hlog. unfold forwarded_events. rewrite Hf. reflexivity.
    + pose proof (service_counting this s w t Hl Hn) as Hs.
      set (t1 := set_ignore_count_ (uint8 (ignore_count_ t - 1)) t) in *.
      match type of Hs with _ = Some (tt, ?x) => set (w1 := x) in * end.
      assert (Hic : ignore_count_ t1 = ignore_count_ t - 1).
      { subst t1. simpl. apply uint8_pred. lia. }
      assert (Hnat : Z.to_nat (ignore_count_ t) = S (Z.to_nat (ignore_count_ t1))).
      { rewrite Hic. lia. }
      destruct (IH w1 t1) as (w' & Hd & Hregs & Hvars & Hme & Hoth & Hlog).
      { subst w1. simpl. apply lookup_insert_eq. }
      { lia. }
      exists w'. simpl. unfold exec. rewrite Hs.
      split; [exact Hd|]. split; [exact Hregs|]. split; [exact Hvars|].
      split; [|split].
      -- rewrite Hme. f_equal. unfold serviced. rewrite Hnat. simpl skipn.
         rewrite Hic. subst t1. simpl. f_equal. lia.
      -- intros q Hq. rewrite (Hoth q Hq). subst w1. simpl.
         apply lookup_insert_ne. congruence.
      -- rewrite Hlog. rewrite Hnat. simpl skipn. subst w1 t1. reflexivity.
Qed.

Lemma service_total (this : addr) (sample : Z) (w : world) (t : adctask filter) :
  heap w !! this = Some t ->
  exists w',
    service this sample w = Some (tt, w') /\
    regs w' = regs w /\ vars w' = vars w /\
    (forall q, q <> this -> heap w' !! q = heap w !! q) /\
    is_Some (heap w' !! this) /\
    log w' = log w ++
             (if ignore_count_ t =? 0 then forwarded_events this t [sample] else []).
Proof.
  intros Hl. destruct (Z.eq_dec (ignore_count_ t) 0) as [Hz|Hn].
  - destruct (filter_ t) as [f|] eqn:Hf.
    + eexists. split; [apply (service_forwarding _ _ _ _ _ Hl Hz Hf)|]. simpl.
      split; [reflexivity|]. split; [reflexivity|]. split; [|split].
      * intros q Hq. apply lookup_insert_ne. congruence.
      * rewrite lookup_insert_eq. eexists; reflexivity.
      * rewrite Hz. unfold forwarded_events. rewrite Hf. reflexivity.
    + exists w. split; [apply (service_dropping _ _ _ _ Hl Hz Hf)|].
      split; [reflexivity|]. split; [reflexivity|]. split; [|split].
      * intros q Hq. reflexivity.
      * rewrite Hl. eexists; reflexivity.
      * rewrite Hz. unfold forwarded_events. rewrite Hf. simpl.
        rewrite app_nil_r. reflexivity.
  - eexists. split; [apply (service_counting _ _ _ _ Hl Hn)|]. simpl.
    split; [reflexivity|]. split; [reflexivity|]. split; [|split].
    + intros q Hq. apply lookup_insert_ne. congruence.
    + rewrite lookup_insert_eq. eexists; reflexivity.
    + apply Z.eqb_neq in Hn. rewrite Hn. rewrite app_nil_r. reflexivity.
Qed.

Lemma service_dangling (this : addr) (sample : Z) (w : world) :
  heap w !! this = None -> service this sample w = None.
Proof.
  intros Hl. unfold adctask_cpp.service, bind, load. rewrite Hl. reflexivity.
Qed.

(** *** The [ADSC] bit *)

Lemma bit_is_set_sbi (sfr : Z) : bit_is_set (sbi sfr ADSC) ADSC = true.
Proof.
  unfold bit_is_set, sbi. rewrite Z.land_lor_distr_l, Z.land_diag.
  apply negb_true_iff, Z.eqb_neq. intros H.
  apply Z.lor_eq_0_iff in H. destruct H as [_ H]. discriminate H.
Qed.

Lemma bit_is_set_cbi (sfr : Z) : bit_is_set (cbi sfr ADSC) ADSC = false.
Proof.
  unfold bit_is_set, cbi. rewrite <- Z.land_assoc.
  change (Z.land (Z.lnot (_BV ADSC)) (_BV ADSC)) with 0.
  rewrite Z.land_0_r. reflexivity.
Qed.

(** *** The tick when a conversion has finished *)

Lemma tick_ready (w : world) :
  bit_is_set (ADCSRA (regs w)) ADSC = false ->
  isr w =
    match current_adc_task (vars w) with
    | Some p =>
        service p (ADCH (regs w))
          (set_log (log (before_dispatch w) ++ [EvService p (ADCH (regs w))])
             (before_dispatch w))
    | None => Some (tt, before_dispatch w)
    end.
Proof.
  intros Hready.
  unfold TIMER1_COMPA_vect, bind, analog_ready, analog_read, analog_trigger, gets,
    emit, modify_regs, modify_vars, modify, ret, before_dispatch.
  rewrite Hready. simpl.
  destruct w as [r g h l]; simpl.
  destruct (next_adc_pin g =? current_adc_pin g) eqn:E; simpl;
    destruct (current_adc_task g) as [p|]; simpl;
    rewrite <- ?app_assoc; reflexivity.
Qed.

(** *** Starting a task *)

Lemma init_adc_tasks_spec (w : world) :
  exists w0,
    init_adc_tasks w = Some (tt, w0) /\
    vars w0 = set_adc_tasks_initialised true (vars w) /\
    heap w0 = heap w /\
    ADMUX (regs w0) = ADMUX (regs w) /\
    ADCH (regs w0) = ADCH (regs w) /\
    SREG_I (regs w0) = SREG_I (regs w) /\
    log w0 = log w ++ (if adc_tasks_initialised (vars w) then [] else [EvTrigger]).
Proof.
  unfold init_adc_tasks, bind, gets.
  destruct w as [r g h l]; destruct g as [cur nxt task done]; simpl.
  destruct done.
  - eexists. split; [reflexivity|]. simpl. rewrite app_nil_r. repeat split.
  - eexists. split; [reflexivity|]. simpl. repeat split.
Qed.

Lemma start_task_spec (this : addr) (w : world) (t : adctask filter) :
  heap w !! this = Some t ->
  exists w1,
    exec (start_task this) w = Some w1 /\
    vars w1 = {| current_adc_pin := current_adc_pin (vars w);
                 next_adc_pin := adc_pin_ t;
                 current_adc_task := Some this;
                 adc_tasks_initialised := true |} /\
    heap w1 = <[this := set_ignore_count_ k_adc_ignore_count t]> (heap w) /\
    ADMUX (regs w1) = ADMUX (regs w) /\
    ADCH (regs w1) = ADCH (regs w) /\
    bit_is_set (ADCSRA (regs w1)) ADSC = true /\
    SREG_I (regs w1) = true /\
    log w1 = log w ++ (if adc_tasks_initialised (vars w) then [] else [EvTrigger])
               ++ [EvTrigger].
Proof.
  intros Hl.
  destruct (init_adc_tasks_spec (set_regs (set_SREG_I false (regs w)) w))
    as (w0 & Hinit & Hv0 & Hh0 & Hmux0 & Hadch0 & Hi0 & Hlog0).
  simpl in Hv0, Hh0, Hmux0, Hadch0, Hlog0.
  unfold exec, start_task, bind, cli, modify_regs, modify at 1.
  rewrite Hinit. unfold load. rewrite Hh0, Hl.
  unfold modify_vars, modify at 1, update. simpl. rewrite Hh0, Hl.
  unfold gets. simpl. rewrite Hv0. simpl.
  destruct w0 as [r0 g0 h0 l0]; simpl in *. subst g0 h0 l0.
  destruct (vars w) as [cur nxt task done] eqn:Hvars; simpl.
  destruct (ptr_eqb task this) eqn:Heq; simpl.
  - apply ptr_eqb_true in Heq. subst task.
    eexists. split; [reflexivity|]. simpl.
    split; [reflexivity|]. split; [reflexivity|].
    split; [exact Hmux0|]. split; [exact Hadch0|].
    split; [apply bit_is_set_sbi|]. split; [reflexivity|].
    rewrite <- app_assoc. reflexivity.
  - eexists. split; [reflexivity|]. simpl.
    split; [reflexivity|]. split; [reflexivity|].
    split; [exact Hmux0|]. split; [exact Hadch0|].
    split; [apply bit_is_set_sbi|]. split; [reflexivity|].
    rewrite <- app_assoc. reflexivity.
Qed.

Lemma start_task_dangling (this : addr) (w : world) :
  heap w !! this = None -> exec (start_task this) w = None.
Proof.
  intros Hl.
  destruct (init_adc_tasks_spec (set_regs (set_SREG_I false (regs w)) w))
    as (w0 & Hinit & _ & Hh0 & _).
  simpl in Hh0.
  unfold exec, start_task, bind, cli, modify_regs, modify at 1.
  rewrite Hinit. unfold load. rewrite Hh0, Hl. reflexivity.
Qed.

(** *** The converter finishing *)

Lemma conversion_complete_spec (result : Z -> Z) (w : world) :
  exec (conversion_complete result) w =
    Some (if bit_is_set (ADCSRA (regs w)) ADSC
          then set_regs (set_ADCH (uint8 (result (ADMUX (regs w))))
                           (set_ADCSRA (cbi (ADCSRA (regs w)) ADSC) (regs w))) w
          else w).
Proof.
  unfold exec, conversion_complete, bind, gets.
  destruct (bit_is_set (ADCSRA (regs w)) ADSC); reflexivity.
Qed.

Lemma tick_ready_total (w : world) :
  bit_is_set (ADCSRA (regs w)) ADSC = false ->
  registration_live w ->
  exists w',
    isr w = Some (tt, w') /\
    regs w' = regs (before_dispatch w) /\
    vars w' = vars (before_dispatch w) /\
    (forall q, current_adc_task (vars w) <> Some q -> heap w' !! q = heap w !! q) /\
    (forall q, is_Some (heap w' !! q) <-> is_Some (heap w !! q)) /\
    log w' = log (before_dispatch w) ++ dispatch_events w.
Proof.
  intros Hready Hlive. rewrite (tick_ready w Hready). unfold dispatch_events.
  destruct (current_adc_task (vars w)) as [p|] eqn:Htask.
  - destruct (Hlive p Htask) as [t Ht]. rewrite Ht.
    set (w0 := set_log _ _).
    destruct (service_total p (ADCH (regs w)) w0 t Ht)
      as (w' & Hs & Hregs & Hvars & Hoth & Hme & Hlog).
    exists w'. split; [exact Hs|].
    split; [exact Hregs|]. split; [exact Hvars|]. split; [|split].
    + intros q Hq. apply Hoth. congruence.
    + intros q. destruct (decide (q = p)) as [->|Hq].
      * split; intros _; [rewrite Ht; eexists; reflexivity | exact Hme].
      * rewrite (Hoth q Hq). reflexivity.
    + rewrite Hlog. subst w0. simpl. rewrite <- !app_assoc. reflexivity.
  - exists (before_dispatch w). split; [reflexivity|].
    split; [reflexivity|]. split; [reflexivity|]. split; [|split].
    + reflexivity.
    + reflexivity.
    + rewrite app_nil_r. reflexivity.
Qed.

Lemma tick_ready_dangling (w : world) (p : addr) :
  bit_is_set (ADCSRA (regs w)) ADSC = false ->
  current_adc_task (vars w) = Some p ->
  heap w !! p = None ->
  isr w = None.
Proof.
  intros Hready Htask Hl. rewrite (tick_ready w Hready), Htask.
  apply service_dangling. exact Hl.
Qed.

Lemma before_dispatch_current_pin (w : world) :
  current_adc_pin (vars (before_dispatch w)) = next_adc_pin (vars w).
Proof.
  unfold before_dispatch. simpl.
  destruct (next_adc_pin (vars w) =? current_adc_pin (vars w)) eqn:E; simpl.
  - apply Z.eqb_eq in E. symmetry. exact E.
  - reflexivity.
Qed.

Lemma before_dispatch_next_pin (w : world) :
  next_adc_pin (vars (before_dispatch w)) = next_adc_pin (vars w).
Proof.
  unfold before_dispatch. simpl.
  destruct (next_adc_pin (vars w) =? current_adc_pin (vars w)); reflexivity.
Qed.

Lemma before_dispatch_task (w : world) :
  current_adc_task (vars (before_dispatch w)) = current_adc_task (vars w).
Proof.
  unfold before_dispatch. simpl.
  destruct (next_adc_pin (vars w) =? current_adc_pin (vars w)); reflexivity.
Qed.

Lemma before_dispatch_ADMUX (w : world) :
  ADMUX (regs (before_dispatch w)) =
    if next_adc_pin (vars w) =? current_adc_pin (vars w)
    then ADMUX (regs w)
    else admux_for (next_adc_pin (vars w)).
Proof.
  unfold before_dispatch. simpl.
  destruct (next_adc_pin (vars w) =? current_adc_pin (vars w)); reflexivity.
Qed.

(** *** One step of the scheduler *)

(** Only a tick that finds the conversion finished writes
    [current_adc_pin], and it writes the requested pin. *)
Lemma step_current_pin (o : op) (w w' : world) :
  exec (step process_sample o) w = Some w' ->
  current_adc_pin (vars w') <> current_adc_pin (vars w) ->
  o = OpTick /\
  bit_is_set (ADCSRA (regs w)) ADSC = false /\
  current_adc_pin (vars w') = next_adc_pin (vars w).
Proof.
  intros Hstep Hchg. destruct o as [p|p| |result]; simpl in Hstep.
  - exfalso. destruct (heap w !! p) as [t|] eqn:Hl.
    + destruct (start_task_spec p w t Hl) as (w1 & H1 & Hv & _).
      rewrite H1 in Hstep. injection Hstep as <-.
      apply Hchg. rewrite Hv. reflexivity.
    + rewrite (start_task_dangling p w Hl) in Hstep. discriminate Hstep.
  - exfalso.
    destruct (stop_task_clears_or_not p w) as [H1|H1];
      rewrite H1 in Hstep; injection Hstep as <-; apply Hchg; reflexivity.
  - destruct (bit_is_set (ADCSRA (regs w)) ADSC) eqn:Hb.
    + exfalso. unfold exec in Hstep.
      rewrite (tick_busy w Hb) in Hstep.
      injection Hstep as <-. apply Hchg. reflexivity.
    + split; [reflexivity|]. split; [reflexivity|].
      unfold exec in Hstep. rewrite (tick_ready w Hb) in Hstep.
      destruct (current_adc_task (vars w)) as [p|] eqn:Htask.
      * set (w0 := set_log _ _) in Hstep.
        destruct (heap w !! p) as [t|] eqn:Hl.
        -- destruct (service_total p (ADCH (regs w)) w0 t Hl)
             as (w1 & Hs & _ & Hvars & _).
           rewrite Hs in Hstep. injection Hstep as <-.
           rewrite Hvars. subst w0. simpl. apply before_dispatch_current_pin.
        -- rewrite (service_dangling p (ADCH (regs w)) w0 Hl) in Hstep.
           discriminate Hstep.
      * injection Hstep as <-. apply before_dispatch_current_pin.
  - exfalso. rewrite conversion_complete_spec in Hstep. injection Hstep as <-.
    apply Hchg. destruct (bit_is_set (ADCSRA (regs w)) ADSC); reflexivity.
Qed.

(** *** Counting [service] calls in the log *)

Lemma service_count_app (p : addr) (l1 l2 : list event) :
  service_count p (l1 ++ l2) = (service_count p l1 + service_count p l2)%nat.
Proof. unfold service_count. rewrite List.filter_app, length_app. reflexivity. Qed.

Lemma service_count_forwarded (p q : addr) (t : adctask filter) (l : list Z) :
  service_count p (forwarded_events q t l) = 0%nat.
Proof.
  unfold forwarded_events. destruct (filter_ t); [|reflexivity].
  induction l as [|s l IH]; [reflexivity | exact IH].
Qed.

Lemma service_count_before_dispatch (p : addr) (w : world) :
  service_count p (log (before_dispatch w)) = service_count p (log w).
Proof.
  unfold before_dispatch. simpl. rewrite !service_count_app.
  destruct (negb (next_adc_pin (vars w) =? current_adc_pin (vars w)));
    unfold service_count; simpl; lia.
Qed.

Lemma service_count_dispatch_other (p : addr) (w : world) :
  current_adc_task (vars w) <> Some p ->
  service_count p (dispatch_events w) = 0%nat.
Proof.
  intros Hp. unfold dispatch_events.
  destruct (current_adc_task (vars w)) as [q|]; [|reflexivity].
  assert (Hq : Pos.eqb p q = false) by (apply Pos.eqb_neq; congruence).
  change (EvService q (ADCH (regs w)) :: ?l) with ([EvService q (ADCH (regs w))] ++ l).
  rewrite service_count_app. unfold service_count at 1. simpl. rewrite Hq. simpl.
  destruct (heap w !! q) as [t|]; [|reflexivity].
  destruct (ignore_count_ t =? 0); [apply service_count_forwarded | reflexivity].
Qed.

Lemma service_count_dispatch_le (p : addr) (w : world) :
  (service_count p (dispatch_events w) <= 1)%nat.
Proof.
  unfold dispatch_events.
  destruct (current_adc_task (vars w)) as [q|]; [|unfold service_count; simpl; lia].
  change (EvService q (ADCH (regs w)) :: ?l) with ([EvService q (ADCH (regs w))] ++ l).
  rewrite service_count_app.
  assert (H1 : (service_count p [EvService q (ADCH (regs w))] <= 1)%nat).
  { unfold service_count. simpl. destruct (Pos.eqb p q); simpl; lia. }
  assert (H2 : service_count p
                 match heap w !! q with
                 | Some t => if ignore_count_ t =? 0
                             then forwarded_events q t [ADCH (regs w)] else []
                 | None => []
                 end = 0%nat).
  { destruct (heap w !! q) as [t|]; [|reflexivity].
    destruct (ignore_count_ t =? 0); [apply service_count_forwarded | reflexivity]. }
  rewrite H2. lia.
Qed.

(** *** What one step preserves *)

Lemma step_inv (o : op) (w w' : world) :
  exec (step process_sample o) w = Some w' ->
  (forall q, is_Some (heap w' !! q) <-> is_Some (heap w !! q)) /\
  (registration_live w -> registration_live w') /\
  (forall w0, admux_tracks_current w0 w -> admux_tracks_current w0 w') /\
  (forall p, o <> OpStart p -> current_adc_task (vars w) <> Some p ->
     current_adc_task (vars w') <> Some p /\
     heap w' !! p = heap w !! p /\
     service_count p (log w') = service_count p (log w)) /\
  (forall p, (service_count p (log w') <= service_count p (log w) + 1)%nat).
Proof.
  intros Hstep. destruct o as [a|a| |result]; simpl in Hstep.
  - (* start_task *)
    destruct (heap w !! a) as [t|] eqn:Hl;
      [|rewrite (start_task_dangling a w Hl) in Hstep; discriminate Hstep].
    destruct (start_task_spec a w t Hl)
      as (w1 & H1 & Hv & Hh & Hmux & _ & _ & _ & Hlog).
    rewrite H1 in Hstep. injection Hstep as <-.
    assert (Hcount : forall p, service_count p (log w1) = service_count p (log w)).
    { intros p. rewrite Hlog, !service_count_app.
      destruct (adc_tasks_initialised (vars w)); unfold service_count; simpl; lia. }
    split; [|split; [|split; [|split]]].
    + intros q. rewrite Hh. destruct (decide (q = a)) as [->|Hq].
      * rewrite lookup_insert_eq, Hl. split; intros _; eexists; reflexivity.
      * rewrite lookup_insert_ne by congruence. reflexivity.
    + intros _ p Hp. rewrite Hv in Hp. simpl in Hp. injection Hp as <-.
      rewrite Hh, lookup_insert_eq. eexists; reflexivity.
    + intros w0 [Ht|[Ht1 Ht2]]; [left|right]; rewrite Hmux, Hv; simpl; auto.
    + intros p Hop Hp. split; [|split].
      * rewrite Hv. simpl. intros [= ->]. apply Hop. reflexivity.
      * rewrite Hh. apply lookup_insert_ne. intros ->. apply Hop. reflexivity.
      * apply Hcount.
    + intros p. rewrite Hcount. lia.
  - (* stop_task *)
    destruct (stop_task_clears_or_not a w) as [H1|H1];
      rewrite H1 in Hstep; injection Hstep as <-.
    + split; [|split; [|split; [|split]]].
      * intros q. reflexivity.
      * intros _ p Hp. discriminate Hp.
      * intros w0 Ht. exact Ht.
      * intros p _ _. split; [discriminate|]. split; reflexivity.
      * intros p. simpl. lia.
    + split; [|split; [|split; [|split]]].
      * intros q. reflexivity.
      * intros Hlive. exact Hlive.
      * intros w0 Ht. exact Ht.
      * intros p _ Hp. split; [exact Hp|]. split; reflexivity.
      * intros p. lia.
  - (* the timer tick *)
    destruct (bit_is_set (ADCSRA (regs w)) ADSC) eqn:Hb.
    + unfold exec in Hstep. rewrite (tick_busy w Hb) in Hstep.
      injection Hstep as <-.
      split; [|split; [|split; [|split]]].
      * intros q. reflexivity.
      * intros Hlive. exact Hlive.
      * intros w0 Ht. exact Ht.
      * intros p _ Hp. split; [exact Hp|]. split; reflexivity.
      * intros p. lia.
    + assert (Hlive : registration_live w).
      { intros p Hp. destruct (heap w !! p) as [t|] eqn:Hl; [eexists; reflexivity|].
        unfold exec in Hstep. rewrite (tick_ready_dangling w p Hb Hp Hl) in Hstep.
        discriminate Hstep. }
      destruct (tick_ready_total w Hb Hlive)
        as (w1 & H1 & Hregs & Hvars & Hoth & Hdom & Hlog).
      unfold exec in Hstep. rewrite H1 in Hstep. injection Hstep as <-.
      split; [|split; [|split; [|split]]].
      * exact Hdom.
      * intros _ p Hp. rewrite Hvars, before_dispatch_task in Hp.
        apply Hdom. apply Hlive. exact Hp.
      * intros w0 Ht. unfold admux_tracks_current.
        rewrite Hregs, Hvars, before_dispatch_ADMUX, before_dispatch_current_pin.
        destruct (next_adc_pin (vars w) =? current_adc_pin (vars w)) eqn:E.
        -- apply Z.eqb_eq in E. rewrite E. exact Ht.
        -- left. reflexivity.
      * intros p _ Hp. split; [|split].
        -- rewrite Hvars, before_dispatch_task. exact Hp.
        -- apply Hoth. exact Hp.
        -- rewrite Hlog, service_count_app, service_count_before_dispatch,
             (service_count_dispatch_other p w Hp). lia.
      * intros p. rewrite Hlog, service_count_app, service_count_before_dispatch.
        pose proof (service_count_dispatch_le p w). lia.
  - (* the converter *)
    rewrite conversion_complete_spec in Hstep. injection Hstep as <-.
    destruct (bit_is_set (ADCSRA (regs w)) ADSC).
    + split; [|split; [|split; [|split]]].
      * intros q. reflexivity.
      * intros Hlive. exact Hlive.
      * intros w0 Ht. exact Ht.
      * intros p _ Hp. split; [exact Hp|]. split; reflexivity.
      * intros p. simpl. lia.
    + split; [|split; [|split; [|split]]].
      * intros q. reflexivity.
      * intros Hlive. exact Hlive.
      * intros w0 Ht. exact Ht.
      * intros p _ Hp. split; [exact Hp|]. split; reflexivity.
      * intros p. lia.
Qed.

(** A step goes through when the registered task and the task to start
    exist. *)
Lemma step_progress (o : op) (w : world) :
  registration_live w ->
  (forall p, o = OpStart p -> is_Some (heap w !! p)) ->
  is_Some (exec (step process_sample o) w).
Proof.
  intros Hlive Hstart. destruct o as [a|a| |result]; simpl.
  - destruct (Hstart a eq_refl) as [t Hl].
    destruct (start_task_spec a w t Hl) as (w1 & H1 & _).
    rewrite H1. eexists; reflexivity.
  - destruct (stop_task_clears_or_not a w) as [H1|H1]; rewrite H1; eexists; reflexivity.
  - destruct (bit_is_set (ADCSRA (regs w)) ADSC) eqn:Hb.
    + unfold exec. rewrite (tick_busy w Hb). eexists; reflexivity.
    + destruct (tick_ready_total w Hb Hlive) as (w1 & H1 & _).
      unfold exec. rewrite H1. eexists; reflexivity.
  - rewrite conversion_complete_spec. eexists; reflexivity.
Qed.

(** *** Runs *)

Lemma run_inv (ops : list op) :
  forall (w w' : world),
    run ops w = Some w' ->
    (forall q, is_Some (heap w' !! q) <-> is_Some (heap w !! q)) /\
    (registration_live w -> registration_live w') /\
    (forall w0, admux_tracks_current w0 w -> admux_tracks_current w0 w') /\
    (forall p, ~ In (OpStart p) ops -> current_adc_task (vars w) <> Some p ->
       current_adc_task (vars w') <> Some p /\
       heap w' !! p = heap w !! p /\
       service_count p (log w') = service_count p (log w)).
Proof.
  induction ops as [|o rest IH]; intros w w' Hrun; simpl in Hrun.
  - injection Hrun as <-. split; [intros q; reflexivity|].
    split; [intros Hlive; exact Hlive|]. split; [intros w0 Ht; exact Ht|].
    intros p _ Hp. split; [exact Hp|]. split; reflexivity.
  - destruct (exec (step process_sample o) w) as [w1|] eqn:Hstep; [|discriminate Hrun].
    destruct (step_inv o w w1 Hstep) as (Hdom1 & Hlive1 & Htr1 & Hfr1 & _).
    destruct (IH w1 w' Hrun) as (Hdom2 & Hlive2 & Htr2 & Hfr2).
    split; [|split; [|split]].
    + intros q. rewrite Hdom2. apply Hdom1.
    + intros Hlive. apply Hlive2, Hlive1, Hlive.
    + intros w0 Ht. apply Htr2, Htr1, Ht.
    + intros p Hnot Hp.
      assert (Ho : o <> OpStart p) by (intros ->; apply Hnot; left; reflexivity).
      assert (Hrest : ~ In (OpStart p) rest) by (intros Hin; apply Hnot; right; exact Hin).
      destruct (Hfr1 p Ho Hp) as (Hp1 & Hheap1 & Hcount1).
      destruct (Hfr2 p Hrest Hp1) as (Hp2 & Hheap2 & Hcount2).
      split; [exact Hp2|]. split; congruence.
Qed.

Lemma run_progress (ops : list op) :
  forall (w : world),
    registration_live w ->
    (forall p, In (OpStart p) ops -> is_Some (heap w !! p)) ->
    is_Some (run ops w).
Proof.
  induction ops as [|o rest IH]; intros w Hlive Hstart; simpl.
  - eexists; reflexivity.
  - destruct (step_progress o w Hlive) as [w1 Hstep].
    { intros p ->. apply Hstart. left. reflexivity. }
    rewrite Hstep.
    destruct (step_inv o w w1 Hstep) as (Hdom1 & Hlive1 & _).
    apply IH.
    + apply Hlive1, Hlive.
    + intros p Hin. apply Hdom1. apply Hstart. right. exact Hin.
Qed.

(** *** At most one active task *)

(** C1: whatever sequence of starts, stops, ticks and conversions runs, at
    most one task is registered at any time, and one tick calls [service]
    on at most one task, the registered one.  Starting task [B] while
    [A] is registered installs [B]; from then on, until [A] is started
    again, [A] is not registered, [service] is not called on it (its call
    count stays what it was) and its countdown and filter are untouched. *)
Theorem one_active_task_at_a_time :
  (forall (ops : list op) (w w' : world),
     run ops w = Some w' ->
     forall a b, active w' a -> active w' b -> a = b) /\
  (forall (w w' : world),
     exec isr w = Some w' ->
     forall p,
       (service_count p (log w') <= service_count p (log w) + 1)%nat /\
       (service_count p (log w') <> service_count p (log w) -> active w p)) /\
  (forall (A B : addr) (w : world) (ops : list op),
     A <> B ->
     active w A ->
     registration_live w ->
     is_Some (heap w !! B) ->
     (forall p, In (OpStart p) ops -> p <> A /\ is_Some (heap w !! p)) ->
     exists w1 w2,
       exec (start_task B) w = Some w1 /\
       active w1 B /\
       run ops w1 = Some w2 /\
       ~ active w2 A /\
       service_count A (log w2) = service_count A (log w) /\
       heap w2 !! A = heap w !! A).
Proof.
  split; [|split].
  - intros ops w w' _ a b Ha Hb. unfold active in *. congruence.
  - intros w w' Hstep p.
    destruct (step_inv OpTick w w' Hstep) as (_ & _ & _ & Hfr & Hle).
    split; [apply Hle|].
    intros Hchg. unfold active.
    destruct (decide (current_adc_task (vars w) = Some p)) as [Hp|Hp]; [exact Hp|].
    exfalso. apply Hchg.
    destruct (Hfr p) as (_ & _ & Hcount); [discriminate | exact Hp | exact Hcount].
  - intros A B w ops Hne HA Hlive [tB HB] Hops.
    destruct (start_task_spec B w tB HB) as (w1 & H1 & Hv1 & _).
    assert (Hstep : exec (step process_sample (OpStart B)) w = Some w1) by exact H1.
    destruct (step_inv (OpStart B) w w1 Hstep) as (Hdom1 & Hlive1 & _ & _ & _).
    assert (HB1 : active w1 B) by (unfold active; rewrite Hv1; reflexivity).
    assert (HA1 : current_adc_task (vars w1) <> Some A).
    { rewrite HB1. intros [= ->]. apply Hne. reflexivity. }
    assert (Hcount1 : service_count A (log w1) = service_count A (log w)).
    { destruct (start_task_spec B w tB HB) as (w1' & H1' & _ & _ & _ & _ & _ & _ & Hlog).
      rewrite H1 in H1'. injection H1' as <-.
      rewrite Hlog, !service_count_app.
      destruct (adc_tasks_initialised (vars w)); unfold service_count; simpl; lia. }
    assert (Hheap1 : heap w1 !! A = heap w !! A).
    { destruct (start_task_spec B w tB HB) as (w1' & H1' & _ & Hh & _).
      rewrite H1 in H1'. injection H1' as <-.
      rewrite Hh. apply lookup_insert_ne. congruence. }
    destruct (run_progress ops w1) as [w2 Hrun].
    { apply Hlive1, Hlive. }
    { intros p Hin. apply Hdom1. apply (Hops p Hin). }
    assert (HnotA : ~ In (OpStart A) ops).
    { intros Hin. destruct (Hops A Hin) as [HAA _]. apply HAA. reflexivity. }
    destruct (run_inv ops w1 w2 Hrun) as (_ & _ & _ & Hfr).
    destruct (Hfr A HnotA HA1) as (HA2 & Hheap2 & Hcount2).
    exists w1, w2.
    split; [exact H1|]. split; [exact HB1|]. split; [exact Hrun|].
    split; [exact HA2|]. split; congruence.
Qed.

(** *** The settle countdown *)

(** C2: [start_task] arms the countdown with [k_adc_ignore_count] = 4.  Of
    the samples then handed to the task's [service], the first four are
    not passed to the filter and every later one is, in order: the calls
    of [process_sample] are exactly those for the samples after the first
    four, and the filter ends up having processed exactly those.  One call
    of [service] with a nonzero countdown only decrements it; with a zero
    countdown it leaves it at zero and passes the sample on. *)
Theorem settle_samples_are_discarded :
  k_adc_ignore_count = 4 /\
  (forall (this : addr) (w : world) (t : adctask filter) (f : filter) (samples : list Z),
     heap w !! this = Some t ->
     filter_ t = Some f ->
     exists w1 w2 t2,
       exec (start_task this) w = Some w1 /\
       heap w1 !! this = Some (set_ignore_count_ k_adc_ignore_count t) /\
       deliver this samples w1 = Some w2 /\
       log w2 = log w1 ++ map (EvProcessSample this) (skipn 4 samples) /\
       heap w2 !! this = Some t2 /\
       filter_ t2 = Some (fold_left process_sample (skipn 4 samples) f) /\
       ignore_count_ t2 = 4 - Z.min 4 (Z.of_nat (length samples))) /\
  (forall (this : addr) (sample : Z) (w : world) (t : adctask filter),
     heap w !! this = Some t ->
     exists w',
       exec (service this sample) w = Some w' /\
       (ignore_count_ t <> 0 ->
          heap w' !! this = Some (set_ignore_count_ (uint8 (ignore_count_ t - 1)) t) /\
          log w' = log w) /\
       (ignore_count_ t = 0 ->
          forall f, filter_ t = Some f ->
            heap w' !! this = Some (set_filter_ (Some (process_sample f sample)) t) /\
            log w' = log w ++ [EvProcessSample this sample])).
Proof.
  split; [reflexivity|]. split.
  - intros this w t f samples Hl Hf.
    destruct (start_task_spec this w t Hl) as (w1 & H1 & _ & Hh & _).
    set (t1 := set_ignore_count_ k_adc_ignore_count t) in *.
    assert (Hl1 : heap w1 !! this = Some t1) by (rewrite Hh; apply lookup_insert_eq).
    destruct (deliver_spec this samples w1 t1 Hl1)
      as (w2 & Hd & _ & _ & Hme & _ & Hlog).
    { subst t1. simpl. unfold k_adc_ignore_count. lia. }
    exists w1, w2, (serviced t1 samples).
    split; [exact H1|]. split; [exact Hl1|]. split; [exact Hd|].
    split; [|split; [exact Hme|split]].
    + rewrite Hlog. unfold forwarded_events. subst t1. simpl. rewrite Hf. reflexivity.
    + unfold serviced. subst t1. simpl. rewrite Hf. reflexivity.
    + reflexivity.
  - intros this sample w t Hl.
    destruct (Z.eq_dec (ignore_count_ t) 0) as [Hz|Hn].
    + destruct (filter_ t) as [f|] eqn:Hf.
      * eexists. unfold exec. rewrite (service_forwarding _ _ _ _ _ Hl Hz Hf).
        split; [reflexivity|]. split; [intros Hn; contradiction|].
        intros _ f' [= <-]. simpl. split; [apply lookup_insert_eq | reflexivity].
      * exists w. unfold exec. rewrite (service_dropping _ _ _ _ Hl Hz Hf).
        split; [reflexivity|]. split; [intros Hn; contradiction|].
        intros _ f' Hf'. discriminate Hf'.
    + eexists. unfold exec. rewrite (service_counting _ _ _ _ Hl Hn).
      split; [reflexivity|]. split.
      * intros _. simpl. split; [apply lookup_insert_eq | reflexivity].
      * intros Hz. contradiction.
Qed.

(** *** A task without a filter *)

Lemma deliver_dropping (this : addr) (samples : list Z) (w : world) (t : adctask filter) :
  heap w !! this = Some t ->
  ignore_count_ t = 0 ->
  filter_ t = None ->
  deliver this samples w = Some w.
Proof.
  intros Hl Hz Hf. induction samples as [|s rest IH]; simpl.
  - reflexivity.
  - unfold exec. rewrite (service_dropping _ _ _ _ Hl Hz Hf). exact IH.
Qed.

(** C9: a task whose filter pointer is null never uses it.  Once its
    countdown is zero, [service] returns with the world exactly as it was,
    for one sample and for any number of them.  Whatever the countdown, no
    [process_sample] call is made for such a task, and it still has no
    filter afterwards.  In general a call of [service] makes a
    [process_sample] call only on a task that has a filter (and whose
    countdown is zero). *)
Theorem null_filter_is_never_used :
  (forall (this : addr) (w : world) (t : adctask filter),
     heap w !! this = Some t ->
     filter_ t = None ->
     (ignore_count_ t = 0 ->
        (forall sample, service this sample w = Some (tt, w)) /\
        (forall samples, deliver this samples w = Some w)) /\
     (0 <= ignore_count_ t < 256 ->
        forall samples, exists w' t',
          deliver this samples w = Some w' /\
          log w' = log w /\ regs w' = regs w /\ vars w' = vars w /\
          heap w' !! this = Some t' /\ filter_ t' = None)) /\
  (forall (this : addr) (sample : Z) (w w' : world),
     exec (service this sample) w = Some w' ->
     log w' <> log w ->
     exists t f,
       heap w !! this = Some t /\ filter_ t = Some f /\ ignore_count_ t = 0 /\
       log w' = log w ++ [EvProcessSample this sample]).
Proof.
  split.
  - intros this w t Hl Hf. split.
    + intros Hz. split.
      * intros sample. apply (service_dropping _ _ _ _ Hl Hz Hf).
      * intros samples. apply (deliver_dropping _ _ _ _ Hl Hz Hf).
    + intros Hr samples.
      destruct (deliver_spec this samples w t Hl Hr)
        as (w' & Hd & Hregs & Hvars & Hme & _ & Hlog).
      exists w', (serviced t samples).
      split; [exact Hd|]. split; [|split; [exact Hregs|split; [exact Hvars|split]]].
      * rewrite Hlog. unfold forwarded_events. rewrite Hf. apply app_nil_r.
      * exact Hme.
      * unfold serviced. simpl. rewrite Hf. reflexivity.
  - intros this sample w w' Hs Hchg. unfold exec in Hs.
    destruct (heap w !! this) as [t|] eqn:Hl;
      [|rewrite (service_dangling _ _ _ Hl) in Hs; discriminate Hs].
    destruct (Z.eq_dec (ignore_count_ t) 0) as [Hz|Hn].
    + destruct (filter_ t) as [f|] eqn:Hf.
      * rewrite (service_forwarding _ _ _ _ _ Hl Hz Hf) in Hs. injection Hs as <-.
        exists t, f. split; [reflexivity|]. split; [exact Hf|]. split; [exact Hz|].
        reflexivity.
      * rewrite (service_dropping _ _ _ _ Hl Hz Hf) in Hs. injection Hs as <-.
        exfalso. apply Hchg. reflexivity.
    + rewrite (service_counting _ _ _ _ Hl Hn) in Hs. injection Hs as <-.
      exfalso. apply Hchg. reflexivity.
Qed.

(** *** The order of operations within a tick *)

Lemma conversion_then_tick (result : Z -> Z) (w : world) :
  bit_is_set (ADCSRA (regs w)) ADSC = true ->
  registration_live w ->
  let w1 := set_regs (set_ADCH (uint8 (result (ADMUX (regs w))))
                        (set_ADCSRA (cbi (ADCSRA (regs w)) ADSC) (regs w))) w in
  exists w',
    run [OpConversion result; OpTick] w = Some w' /\
    regs w' = regs (before_dispatch w1) /\
    vars w' = vars (before_dispatch w1) /\
    (forall q, is_Some (heap w' !! q) <-> is_Some (heap w !! q)) /\
    log w' = log (before_dispatch w1) ++ dispatch_events w1.
Proof.
  intros Hbusy Hlive w1.
  assert (Hready : bit_is_set (ADCSRA (regs w1)) ADSC = false).
  { subst w1. simpl. apply bit_is_set_cbi. }
  assert (Hlive1 : registration_live w1) by exact Hlive.
  destruct (tick_ready_total w1 Hready Hlive1)
    as (w' & Ht & Hregs & Hvars & _ & Hdom & Hlog).
  exists w'. split.
  - simpl. rewrite conversion_complete_spec, Hbusy. fold w1.
    unfold exec. rewrite Ht. reflexivity.
  - split; [exact Hregs|]. split; [exact Hvars|]. split; [exact Hdom | exact Hlog].
Qed.

(** C3: a tick that finds the conversion finished reads the sample, then
    (only when the requested pin differs from the current one) writes
    [ADMUX] and records the requested pin as current, then triggers the
    next conversion, then calls [service] on the registered task with the
    sample it read; these are the handler's events, in this order.  No
    other step changes the current pin: it changes only at such a tick,
    and to the requested pin.  The sample a tick dispatches is the one the
    converter produced under the [ADMUX] setting in force before that
    tick's switch. *)
Theorem tick_order_of_operations :
  (forall (w : world),
     bit_is_set (ADCSRA (regs w)) ADSC = false ->
     registration_live w ->
     let sample := ADCH (regs w) in
     let next := next_adc_pin (vars w) in
     let admux := Z.lor (Z.lor (Z.shiftl 1 6) (Z.shiftl 1 5)) (Z.land next 7) in
     exists w' inner,
       exec isr w = Some w' /\
       log w' = log w
                ++ [EvAnalogRead sample]
                ++ (if next =? current_adc_pin (vars w) then []
                    else [EvSelectChannel admux])
                ++ [EvTrigger]
                ++ match current_adc_task (vars w) with
                   | Some p => EvService p sample :: inner
                   | None => []
                   end /\
       (forall e, In e inner ->
          exists p, active w p /\ e = EvProcessSample p sample) /\
       current_adc_pin (vars w') = next /\
       next_adc_pin (vars w') = next /\
       ADMUX (regs w') =
         (if next =? current_adc_pin (vars w) then ADMUX (regs w) else admux) /\
       bit_is_set (ADCSRA (regs w')) ADSC = true) /\
  (forall (o : op) (w w' : world),
     exec (step process_sample o) w = Some w' ->
     current_adc_pin (vars w') <> current_adc_pin (vars w) ->
     o = OpTick /\
     bit_is_set (ADCSRA (regs w)) ADSC = false /\
     current_adc_pin (vars w') = next_adc_pin (vars w)) /\
  (forall (result : Z -> Z) (w : world),
     bit_is_set (ADCSRA (regs w)) ADSC = true ->
     registration_live w ->
     exists w' rest,
       run [OpConversion result; OpTick] w = Some w' /\
       log w' = log w ++ EvAnalogRead (uint8 (result (ADMUX (regs w)))) :: rest /\
       (forall p, active w p ->
          In (EvService p (uint8 (result (ADMUX (regs w))))) rest) /\
       (forall p sample, In (EvService p sample) rest ->
          sample = uint8 (result (ADMUX (regs w))))).
Proof.
  split; [|split].
  - intros w Hready Hlive sample next admux.
    destruct (tick_ready_total w Hready Hlive)
      as (w' & Ht & Hregs & Hvars & _ & _ & Hlog).
    exists w', (tl (dispatch_events w)).
    split; [unfold exec; rewrite Ht; reflexivity|].
    split; [|split; [|split; [|split; [|split]]]].
    + rewrite Hlog. unfold before_dispatch, dispatch_events. simpl.
      fold sample next. change (admux_for next) with admux.
      destruct (next =? current_adc_pin (vars w)); simpl;
        destruct (current_adc_task (vars w)); simpl;
        rewrite <- !app_assoc; reflexivity.
    + intros e Hin. unfold dispatch_events in Hin.
      destruct (current_adc_task (vars w)) as [p|] eqn:Htask; [|destruct Hin].
      simpl in Hin. exists p. split; [exact Htask|].
      destruct (heap w !! p) as [t|]; [|destruct Hin].
      destruct (ignore_count_ t =? 0); [|destruct Hin].
      unfold forwarded_events in Hin.
      destruct (filter_ t); simpl in Hin; [|destruct Hin].
      destruct Hin as [Hin|[]]. symmetry. exact Hin.
    + rewrite Hvars. apply before_dispatch_current_pin.
    + rewrite Hvars. apply before_dispatch_next_pin.
    + rewrite Hregs. apply before_dispatch_ADMUX.
    + rewrite Hregs. unfold before_dispatch. simpl.
      destruct (negb (next_adc_pin (vars w) =? current_adc_pin (vars w)));
        apply bit_is_set_sbi.
  - intros o w w' Hstep Hchg. exact (step_current_pin o w w' Hstep Hchg).
  - intros result w Hbusy Hlive.
    destruct (conversion_then_tick result w Hbusy Hlive)
      as (w' & Hrun & _ & _ & _ & Hlog).
    set (sample := uint8 (result (ADMUX (regs w)))) in *.
    set (w1 := set_regs (set_ADCH _ _) w) in *.
    set (switch := if negb (next_adc_pin (vars w) =? current_adc_pin (vars w))
                   then [EvSelectChannel (admux_for (next_adc_pin (vars w)))]
                   else []).
    exists w', (switch ++ [EvTrigger] ++ dispatch_events w1).
    split; [exact Hrun|]. split; [|split].
    + rewrite Hlog. unfold before_dispatch. simpl. fold switch.
      rewrite <- app_assoc. f_equal. simpl. f_equal.
      rewrite <- app_assoc. reflexivity.
    + intros p Hp. apply in_or_app. right. apply in_or_app. right.
      unfold dispatch_events. subst w1. simpl. rewrite Hp. left. reflexivity.
    + intros p s Hin.
      apply in_app_or in Hin. destruct Hin as [Hin|Hin].
      { subst switch.
        destruct (negb (next_adc_pin (vars w) =? current_adc_pin (vars w)));
          simpl in Hin; [destruct Hin as [Hin|[]]; discriminate Hin | destruct Hin]. }
      apply in_app_or in Hin. destruct Hin as [Hin|Hin].
      { simpl in Hin. destruct Hin as [Hin|[]]. discriminate Hin. }
      unfold dispatch_events in Hin. subst w1. simpl in Hin.
      destruct (current_adc_task (vars w)) as [q|]; [|destruct Hin].
      destruct Hin as [Hin|Hin]; [injection Hin as _ <-; reflexivity|].
      exfalso.
      destruct (heap w !! q) as [t|]; [|destruct Hin].
      destruct (ignore_count_ t =? 0); [|destruct Hin].
      unfold forwarded_events in Hin.
      destruct (filter_ t); simpl in Hin; [destruct Hin as [Hin|[]]; discriminate Hin|].
      destruct Hin.
Qed.

(** *** The channel written to [ADMUX] *)

Lemma admux_for_value (pin : Z) :
  admux_for pin = 96 + pin mod 8 /\
  Z.testbit (admux_for pin) 6 = true /\
  Z.testbit (admux_for pin) 5 = true /\
  Z.land (admux_for pin) 7 = pin mod 8.
Proof.
  unfold admux_for.
  assert (Hland : Z.land pin 7 = pin mod 8).
  { change 7 with (Z.ones 3). rewrite Z.land_ones by lia. reflexivity. }
  rewrite Hland.
  assert (Hr : 0 <= pin mod 8 < 8) by (apply Z.mod_pos_bound; lia).
  assert (Hc : pin mod 8 = 0 \/ pin mod 8 = 1 \/ pin mod 8 = 2 \/ pin mod 8 = 3 \/
               pin mod 8 = 4 \/ pin mod 8 = 5 \/ pin mod 8 = 6 \/ pin mod 8 = 7) by lia.
  destruct Hc as [H|[H|[H|[H|[H|[H|[H|H]]]]]]]; rewrite H; repeat split; reflexivity.
Qed.

Lemma start_conversion_tick (this : addr) (result : Z -> Z) (w : world)
    (t : adctask filter) :
  heap w !! this = Some t ->
  exists w',
    run [OpStart this; OpConversion result; OpTick] w = Some w' /\
    current_adc_pin (vars w') = adc_pin_ t /\
    active w' this /\
    ADMUX (regs w') =
      (if adc_pin_ t =? current_adc_pin (vars w) then ADMUX (regs w)
       else admux_for (adc_pin_ t)).
Proof.
  intros Hl.
  destruct (start_task_spec this w t Hl)
    as (w1 & H1 & Hv & Hh & Hmux & _ & Hbusy & _).
  assert (Hlive1 : registration_live w1).
  { intros p Hp. rewrite Hv in Hp. simpl in Hp. injection Hp as <-.
    rewrite Hh, lookup_insert_eq. eexists; reflexivity. }
  destruct (conversion_then_tick result w1 Hbusy Hlive1)
    as (w' & Hrun & Hregs & Hvars & _).
  exists w'. split.
  - simpl in Hrun |- *. rewrite H1. exact Hrun.
  - split; [|split].
    + rewrite Hvars, before_dispatch_current_pin. simpl. rewrite Hv. reflexivity.
    + unfold active. rewrite Hvars, before_dispatch_task. simpl. rewrite Hv. reflexivity.
    + rewrite Hregs, before_dispatch_ADMUX. simpl. rewrite Hv, Hmux. reflexivity.
Qed.

(** C10 as amended: whenever the handler writes [ADMUX], which it does at
    a tick that finds the conversion finished and the requested pin
    different from the current one, the value written is the requested
    pin's low three bits (pin mod 8) with bit 6 (reference voltage) and
    bit 5 (left alignment) set.  Hence, in any world reached from power-on,
    starting a task whose pin is not 255 makes the converter sample
    channel pin mod 8 from the next finished conversion's tick on; this
    includes the pins greater than 7 other than 255. *)
Theorem admux_is_written_with_pin_mod_8 :
  (forall (w : world),
     bit_is_set (ADCSRA (regs w)) ADSC = false ->
     registration_live w ->
     next_adc_pin (vars w) <> current_adc_pin (vars w) ->
     exists w',
       exec isr w = Some w' /\
       In (EvSelectChannel (96 + next_adc_pin (vars w) mod 8)) (log w') /\
       ADMUX (regs w') = 96 + next_adc_pin (vars w) mod 8 /\
       Z.testbit (ADMUX (regs w')) 6 = true /\
       Z.testbit (ADMUX (regs w')) 5 = true /\
       Z.land (ADMUX (regs w')) 7 = next_adc_pin (vars w) mod 8) /\
  (forall (r : mcu) (objs : gmap addr (adctask filter)) (ops : list op) (w : world)
          (this : addr) (t : adctask filter) (result : Z -> Z),
     run ops (power_on r objs) = Some w ->
     heap w !! this = Some t ->
     adc_pin_ t <> 255 ->
     exists w',
       run [OpStart this; OpConversion result; OpTick] w = Some w' /\
       ADMUX (regs w') = 96 + adc_pin_ t mod 8 /\
       Z.land (ADMUX (regs w')) 7 = adc_pin_ t mod 8).
Proof.
  split.
  - intros w Hready Hlive Hne.
    destruct (tick_ready_total w Hready Hlive)
      as (w' & Ht & Hregs & _ & _ & _ & Hlog).
    destruct (admux_for_value (next_adc_pin (vars w))) as (Hval & Hb6 & Hb5 & Hlow).
    apply Z.eqb_neq in Hne.
    assert (Hmux : ADMUX (regs w') = admux_for (next_adc_pin (vars w))).
    { rewrite Hregs, before_dispatch_ADMUX, Hne. reflexivity. }
    exists w'. split; [unfold exec; rewrite Ht; reflexivity|].
    split; [|rewrite Hmux; repeat split; assumption].
    rewrite Hlog. unfold before_dispatch. simpl. rewrite Hne. simpl.
    rewrite <- Hval. apply in_or_app. left. apply in_or_app. right.
    right. left. reflexivity.
  - intros r objs ops w this t result Hrun Hl Hpin.
    destruct (run_inv ops _ _ Hrun) as (_ & _ & Htr & _).
    assert (Htrack : admux_tracks_current (power_on r objs) w).
    { apply Htr. right. split; reflexivity. }
    destruct (start_conversion_tick this result w t Hl) as (w' & Hrun' & _ & _ & Hmux).
    destruct (admux_for_value (adc_pin_ t)) as (Hval & _ & _ & Hlow).
    assert (Hfinal : ADMUX (regs w') = admux_for (adc_pin_ t)).
    { rewrite Hmux. destruct (adc_pin_ t =? current_adc_pin (vars w)) eqn:E; [|reflexivity].
      apply Z.eqb_eq in E. destruct Htrack as [Ht|[_ Ht]].
      - rewrite Ht, E. reflexivity.
      - exfalso. apply Hpin. rewrite E, Ht. reflexivity. }
    exists w'. split; [exact Hrun'|]. rewrite Hfinal. split; assumption.
Qed.

(** ** Further properties of [adctask.cpp] *)

(** *** The register bits *)

Lemma testbit_BV (b n : Z) : 0 <= b -> 0 <= n -> Z.testbit (_BV b) n = (n =? b).
Proof.
  intros Hb Hn. unfold _BV. rewrite Z.shiftl_1_l, Z.eqb_sym.
  apply Z.pow2_bits_eqb. exact Hb.
Qed.

Lemma testbit_sbi (sfr b n : Z) :
  0 <= b -> 0 <= n -> Z.testbit (sbi sfr b) n = Z.testbit sfr n || (n =? b).
Proof.
  intros Hb Hn. unfold sbi. rewrite Z.lor_spec, testbit_BV by assumption. reflexivity.
Qed.

Lemma testbit_cbi (sfr b n : Z) :
  0 <= b -> 0 <= n -> Z.testbit (cbi sfr b) n = Z.testbit sfr n && negb (n =? b).
Proof.
  intros Hb Hn. unfold cbi.
  rewrite Z.land_spec, Z.lnot_spec, testbit_BV by assumption. reflexivity.
Qed.

Lemma testbit_prescaler_bits (b0 b1 b2 : bool) (adcsra n : Z) :
  0 <= n ->
  Z.testbit (prescaler_bits b0 b1 b2 adcsra) n =
    if n =? 0 then b0 else if n =? 1 then b1 else if n =? 2 then b2
    else Z.testbit adcsra n.
Proof.
  intros Hn. unfold prescaler_bits, ADPS0, ADPS1, ADPS2.
  destruct b0, b1, b2; cbv beta iota;
    repeat first [rewrite testbit_sbi by lia | rewrite testbit_cbi by lia];
    destruct (Z.eqb_spec n 0) as [E0|E0];
    destruct (Z.eqb_spec n 1) as [E1|E1];
    destruct (Z.eqb_spec n 2) as [E2|E2];
    try lia; simpl;
    rewrite ?orb_false_r, ?orb_true_r, ?andb_true_r, ?andb_false_r;
    reflexivity.
Qed.

Lemma prescaler_bits_low (b0 b1 b2 : bool) (adcsra : Z) :
  Z.land (prescaler_bits b0 b1 b2 adcsra) 7 =
    Z.b2z b0 + 2 * Z.b2z b1 + 4 * Z.b2z b2.
Proof.
  apply Z.bits_inj'. intros n Hn.
  rewrite Z.land_spec, testbit_prescaler_bits by exact Hn.
  destruct (n =? 0) eqn:E0; [apply Z.eqb_eq in E0; subst n; destruct b0, b1, b2; reflexivity|].
  destruct (n =? 1) eqn:E1; [apply Z.eqb_eq in E1; subst n; destruct b0, b1, b2; reflexivity|].
  destruct (n =? 2) eqn:E2; [apply Z.eqb_eq in E2; subst n; destruct b0, b1, b2; reflexivity|].
  apply Z.eqb_neq in E0, E1, E2.
  assert (H7 : Z.testbit 7 n = false).
  { apply Z.bits_above_log2; [lia|]. change (Z.log2 7) with 2. lia. }
  rewrite H7, andb_false_r. symmetry.
  destruct b0, b1, b2; simpl;
    (apply Z.testbit_0_l ||
     (apply Z.bits_above_log2; [lia|]; simpl; lia)).
Qed.

Lemma prescaler_bits_high (b0 b1 b2 : bool) (adcsra : Z) :
  Z.shiftr (prescaler_bits b0 b1 b2 adcsra) 3 = Z.shiftr adcsra 3.
Proof.
  apply Z.bits_inj'. intros n Hn.
  rewrite !Z.shiftr_spec by exact Hn.
  rewrite testbit_prescaler_bits by lia.
  destruct (n + 3 =? 0) eqn:E0; [apply Z.eqb_eq in E0; lia|].
  destruct (n + 3 =? 1) eqn:E1; [apply Z.eqb_eq in E1; lia|].
  destruct (n + 3 =? 2) eqn:E2; [apply Z.eqb_eq in E2; lia|].
  reflexivity.
Qed.

Lemma prescaler_bits_ADSC (b0 b1 b2 : bool) (adcsra : Z) :
  bit_is_set (prescaler_bits b0 b1 b2 adcsra) ADSC = bit_is_set adcsra ADSC.
Proof.
  assert (H : forall x, bit_is_set x ADSC = Z.testbit x 6).
  { intros x. unfold bit_is_set, ADSC.
    change (_BV 6) with (2 ^ 6). rewrite Z.land_comm.
    change (2 ^ 6) with (Z.shiftl 1 6) at 1.
    destruct (Z.testbit x 6) eqn:E.
    - apply negb_true_iff, Z.eqb_neq. intros H0.
      assert (Hb : Z.testbit (Z.land (Z.shiftl 1 6) x) 6 = true).
      { rewrite Z.land_spec, E. reflexivity. }
      rewrite H0 in Hb. discriminate Hb.
    - apply negb_false_iff, Z.eqb_eq. apply Z.bits_inj'. intros n Hn.
      rewrite Z.land_spec, Z.testbit_0_l.
      change (Z.shiftl 1 6) with (_BV 6). rewrite testbit_BV by lia.
      destruct (n =? 6) eqn:E6; [|reflexivity].
      apply Z.eqb_eq in E6. subst n. rewrite E. reflexivity. }
  rewrite !H. rewrite testbit_prescaler_bits by lia. reflexivity.
Qed.

(** What [init_adc_clock_prescaler] leaves in the world. *)
Lemma init_adc_clock_prescaler_spec (value : Z) (w : world) :
  init_adc_clock_prescaler value w =
    Some (tt,
          if value =? 0 then w
          else
            let bits :=
              if value =? 2 then prescaler_bits true false false
              else if value =? 4 then prescaler_bits false true false
              else if value =? 8 then prescaler_bits true true false
              else if value =? 16 then prescaler_bits false false true
              else if value =? 32 then prescaler_bits true false true
              else if value =? 64 then prescaler_bits false true true
              else prescaler_bits true true true in
            set_regs (set_ADCSRA (bits (ADCSRA (regs w))) (regs w)) w).
Proof.
  unfold init_adc_clock_prescaler, adc_prescale.
  destruct (value =? 0); [reflexivity|].
  destruct (value =? 2); [reflexivity|].
  destruct (value =? 4); [reflexivity|].
  destruct (value =? 8); [reflexivity|].
  destruct (value =? 16); [reflexivity|].
  destruct (value =? 32); [reflexivity|].
  destruct (value =? 64); reflexivity.
Qed.


Lemma prescaler_world (b0 b1 b2 : bool) (w : world) :
  let w' := set_regs (set_ADCSRA (prescaler_bits b0 b1 b2 (ADCSRA (regs w))) (regs w)) w in
  Z.land (ADCSRA (regs w')) 7 = Z.b2z b0 + 2 * Z.b2z b1 + 4 * Z.b2z b2 /\
  Z.shiftr (ADCSRA (regs w')) 3 = Z.shiftr (ADCSRA (regs w)) 3 /\
  bit_is_set (ADCSRA (regs w')) ADSC = bit_is_set (ADCSRA (regs w)) ADSC /\
  set_regs (set_ADCSRA (ADCSRA (regs w)) (regs w')) w' = w.
Proof.
  cbn [regs set_regs ADCSRA set_ADCSRA].
  split; [apply prescaler_bits_low|]. split; [apply prescaler_bits_high|].
  split; [apply prescaler_bits_ADSC|].
  destruct w as [r g h l]; destruct r; reflexivity.
Qed.

(** X1: [init_adc_clock_prescaler] writes the division factor 2^k, for k
    from 1 to 7, as the number k into the three prescaler bits
    ADPS2..ADPS0 of [ADCSRA]; any other value but 0 selects 7 (divide by
    128); the value 0 changes nothing at all, because it equals the cached
    [adc_prescale], which is never updated.  The other bits of [ADCSRA],
    [ADSC] among them, and the rest of the world are left alone. *)
Theorem prescaler_bits_encode_the_divider (value : Z) (w : world) :
  exists w',
    init_adc_clock_prescaler value w = Some (tt, w') /\
    (value = 0 -> w' = w) /\
    (forall k, 1 <= k <= 7 -> value = 2 ^ k -> Z.land (ADCSRA (regs w')) 7 = k) /\
    (value <> 0 -> (forall k, 1 <= k <= 6 -> value <> 2 ^ k) ->
       Z.land (ADCSRA (regs w')) 7 = 7) /\
    Z.shiftr (ADCSRA (regs w')) 3 = Z.shiftr (ADCSRA (regs w)) 3 /\
    bit_is_set (ADCSRA (regs w')) ADSC = bit_is_set (ADCSRA (regs w)) ADSC /\
    set_regs (set_ADCSRA (ADCSRA (regs w)) (regs w')) w' = w.
Proof.
  rewrite init_adc_clock_prescaler_spec. eexists. split; [reflexivity|].
  assert (Hpow : forall k, 1 <= k <= 7 ->
            (k = 1 /\ 2 ^ k = 2) \/ (k = 2 /\ 2 ^ k = 4) \/ (k = 3 /\ 2 ^ k = 8) \/
            (k = 4 /\ 2 ^ k = 16) \/ (k = 5 /\ 2 ^ k = 32) \/ (k = 6 /\ 2 ^ k = 64) \/
            (k = 7 /\ 2 ^ k = 128)).
  { intros k Hk.
    assert (Hc : k = 1 \/ k = 2 \/ k = 3 \/ k = 4 \/ k = 5 \/ k = 6 \/ k = 7) by lia.
    destruct Hc as [->|[->|[->|[->|[->|[->| ->]]]]]]; simpl; lia. }
  destruct (Z.eqb_spec value 0) as [H0|H0].
  - split; [reflexivity|]. split; [|split; [|split; [|split]]].
    + intros k Hk Hv. exfalso.
      destruct (Hpow k Hk) as [H|[H|[H|[H|[H|[H|H]]]]]]; lia.
    + intros Hn. contradiction.
    + reflexivity.
    + reflexivity.
    + destruct w as [r g h l]; destruct r; reflexivity.
  - split; [intros H; contradiction|].
    destruct (Z.eqb_spec value 2) as [H2|H2];
      [|destruct (Z.eqb_spec value 4) as [H4|H4];
        [|destruct (Z.eqb_spec value 8) as [H8|H8];
          [|destruct (Z.eqb_spec value 16) as [H16|H16];
            [|destruct (Z.eqb_spec value 32) as [H32|H32];
              [|destruct (Z.eqb_spec value 64) as [H64|H64]]]]]];
      cbv zeta;
      match goal with
      | |- context [prescaler_bits ?b0 ?b1 ?b2 _] =>
          destruct (prescaler_world b0 b1 b2 w) as (Hlow & Hhigh & Hadsc & Hframe)
      end;
      cbv zeta in Hlow, Hhigh, Hadsc, Hframe; simpl Z.b2z in Hlow;
      (split; [|split; [|split; [exact Hhigh|split; [exact Hadsc | exact Hframe]]]]);
      rewrite Hlow;
      match goal with
      | |- (_ <> _) -> _ =>
          intros _ Hk;
          first [ reflexivity
                | exfalso;
                  first [ apply (Hk 1); [lia | eassumption]
                        | apply (Hk 2); [lia | eassumption]
                        | apply (Hk 3); [lia | eassumption]
                        | apply (Hk 4); [lia | eassumption]
                        | apply (Hk 5); [lia | eassumption]
                        | apply (Hk 6); [lia | eassumption] ] ]
      | |- _ =>
          intros k Hk Hv;
          destruct (Hpow k Hk) as [H|[H|[H|[H|[H|[H|H]]]]]]; lia
      end.
Qed.

Lemma initialise_timer_and_adc_spec (w : world) :
  initialise_timer_and_adc w =
    Some (tt, set_regs
                (Mcu (ADMUX (regs w))
                     (prescaler_bits true false true (ADCSRA (regs w)))
                     (ADCH (regs w)) 0 11 0 7 (Z.lor (TIMSK1 (regs w)) 2)
                     (SREG_I (regs w))) w).
Proof. reflexivity. Qed.

(** X2: [initialise_timer_and_adc] puts timer 1 into the same
    configuration whatever the registers held before: [TCCR1A] = 0,
    [TCCR1B] = WGM12 | CS11 | CS10 (clear-on-compare, prescaler 64),
    [TCNT1] = 0, [OCR1A] = [k_timer_1_comapre_to], and [OCIE1A] added to
    [TIMSK1]; the converter's prescaler bits become 5 (divide by 32).
    [ADMUX], [ADCH], [ADSC], the interrupt flag, the variables, the tasks
    and the log are untouched.  The compare value gives
    16000000 / (64 * (OCR1A + 1)) = 31250, which is the implementation's
    [k_timer_1_frequency] and not the header's [sample_rate()]. *)
Theorem timer_and_adc_configuration (w : world) :
  exists w',
    initialise_timer_and_adc w = Some (tt, w') /\
    TCCR1A (regs w') = 0 /\
    TCCR1B (regs w') =
      Z.lor (Z.shiftl 1 WGM12) (Z.lor (Z.shiftl 1 CS11) (Z.shiftl 1 CS10)) /\
    TCNT1 (regs w') = 0 /\
    OCR1A (regs w') = k_timer_1_comapre_to /\
    TIMSK1 (regs w') = Z.lor (TIMSK1 (regs w)) (Z.shiftl 1 OCIE1A) /\
    Z.land (ADCSRA (regs w')) 7 = 5 /\
    Z.shiftr (ADCSRA (regs w')) 3 = Z.shiftr (ADCSRA (regs w)) 3 /\
    bit_is_set (ADCSRA (regs w')) ADSC = bit_is_set (ADCSRA (regs w)) ADSC /\
    ADMUX (regs w') = ADMUX (regs w) /\
    ADCH (regs w') = ADCH (regs w) /\
    SREG_I (regs w') = SREG_I (regs w) /\
    vars w' = vars w /\ heap w' = heap w /\ log w' = log w /\
    adctask_h.k_arduino_frequency / (64 * (OCR1A (regs w') + 1))
      = adctask_cpp.k_timer_1_frequency /\
    adctask_h.k_arduino_frequency / (64 * (OCR1A (regs w') + 1))
      <> adctask_h.sample_rate.
Proof.
  rewrite initialise_timer_and_adc_spec. eexists. split; [reflexivity|].
  cbn [regs vars heap log set_regs ADMUX ADCSRA ADCH TCCR1A TCCR1B TCNT1 OCR1A
       TIMSK1 SREG_I].
  split; [reflexivity|]. split; [reflexivity|]. split; [reflexivity|].
  split; [reflexivity|]. split; [reflexivity|].
  split; [rewrite prescaler_bits_low; reflexivity|].
  split; [apply prescaler_bits_high|]. split; [apply prescaler_bits_ADSC|].
  repeat (split; [reflexivity|]). discriminate.
Qed.


(** *** Initialisation happens once *)

Lemma init_adc_tasks_done (w : world) :
  adc_tasks_initialised (vars w) = true -> init_adc_tasks w = Some (tt, w).
Proof.
  intros H. unfold init_adc_tasks, bind, gets. rewrite H. reflexivity.
Qed.

Lemma start_task_initialised (this : addr) (w : world) (t : adctask filter) :
  adc_tasks_initialised (vars w) = true ->
  heap w !! this = Some t ->
  exists w1,
    exec (start_task this) w = Some w1 /\
    regs w1 = set_SREG_I true (set_ADCSRA (sbi (ADCSRA (regs w)) ADSC) (regs w)).
Proof.
  intros Hdone Hl.
  unfold exec, start_task, bind, cli, modify_regs, modify at 1.
  rewrite init_adc_tasks_done by exact Hdone.
  unfold load. cbn [heap set_regs]. rewrite Hl.
  unfold modify_vars, modify at 1, update. cbn [heap set_vars set_regs]. rewrite Hl.
  unfold gets. cbn [vars set_heap set_vars set_regs current_adc_task set_next_adc_pin].
  destruct (negb (ptr_eqb (current_adc_task (vars w)) this));
    (eexists; split; [reflexivity|]); destruct w as [r g h l]; destruct r; reflexivity.
Qed.

Lemma land_sbi_ADSC (sfr : Z) :
  Z.land (sbi sfr ADSC) (Z.lnot (_BV ADSC)) = Z.land sfr (Z.lnot (_BV ADSC)).
Proof.
  unfold sbi. rewrite Z.land_lor_distr_l, Z.land_lnot_diag, Z.lor_0_r. reflexivity.
Qed.

Lemma land_cbi_ADSC (sfr : Z) :
  Z.land (cbi sfr ADSC) (Z.lnot (_BV ADSC)) = Z.land sfr (Z.lnot (_BV ADSC)).
Proof.
  unfold cbi. rewrite <- Z.land_assoc, Z.land_diag. reflexivity.
Qed.

Lemma same_configuration_refl (r : mcu) : same_configuration r r.
Proof. repeat split. Qed.

Lemma same_configuration_trans (r1 r2 r3 : mcu) :
  same_configuration r1 r2 -> same_configuration r2 r3 -> same_configuration r1 r3.
Proof.
  unfold same_configuration.
  intros (A1 & A2 & A3 & A4 & A5 & A6) (B1 & B2 & B3 & B4 & B5 & B6).
  repeat split; congruence.
Qed.

(** A tick that goes through found the registered task alive. *)
Lemma tick_ready_live (w w' : world) :
  bit_is_set (ADCSRA (regs w)) ADSC = false ->
  exec isr w = Some w' ->
  registration_live w.
Proof.
  intros Hb Hstep p Hp.
  destruct (heap w !! p) as [t|] eqn:Hl; [eexists; reflexivity|].
  unfold exec in Hstep. rewrite (tick_ready_dangling w p Hb Hp Hl) in Hstep.
  discriminate Hstep.
Qed.

Lemma tick_ready_inv (w w' : world) :
  bit_is_set (ADCSRA (regs w)) ADSC = false ->
  exec isr w = Some w' ->
  regs w' = regs (before_dispatch w) /\
  vars w' = vars (before_dispatch w) /\
  (forall q, current_adc_task (vars w) <> Some q -> heap w' !! q = heap w !! q) /\
  log w' = log (before_dispatch w) ++ dispatch_events w.
Proof.
  intros Hb Hstep.
  destruct (tick_ready_total w Hb (tick_ready_live w w' Hb Hstep))
    as (w1 & H1 & Hregs & Hvars & Hoth & _ & Hlog).
  unfold exec in Hstep. rewrite H1 in Hstep. injection Hstep as <-.
  split; [exact Hregs|]. split; [exact Hvars|]. split; [exact Hoth | exact Hlog].
Qed.

Lemma before_dispatch_configuration (w : world) :
  same_configuration (regs w) (regs (before_dispatch w)) /\
  adc_tasks_initialised (vars (before_dispatch w)) = adc_tasks_initialised (vars w) /\
  SREG_I (regs (before_dispatch w)) = SREG_I (regs w) /\
  bit_is_set (ADCSRA (regs (before_dispatch w))) ADSC = true.
Proof.
  unfold before_dispatch, same_configuration.
  cbn [regs vars].
  destruct (negb (next_adc_pin (vars w) =? current_adc_pin (vars w)));
    cbn; rewrite land_sbi_ADSC, bit_is_set_sbi; repeat split.
Qed.

Lemma step_configuration (o : op) (w w' : world) :
  adc_tasks_initialised (vars w) = true ->
  exec (step process_sample o) w = Some w' ->
  adc_tasks_initialised (vars w') = true /\
  same_configuration (regs w) (regs w').
Proof.
  intros Hdone Hstep. destruct o as [a|a| |result]; simpl in Hstep.
  - destruct (heap w !! a) as [t|] eqn:Hl;
      [|rewrite (start_task_dangling a w Hl) in Hstep; discriminate Hstep].
    destruct (start_task_spec a w t Hl) as (w1 & H1 & Hv & _).
    destruct (start_task_initialised a w t Hdone Hl) as (w2 & H2 & Hregs).
    rewrite H1 in H2. injection H2 as <-.
    rewrite H1 in Hstep. injection Hstep as <-.
    split; [rewrite Hv; reflexivity|].
    rewrite Hregs. unfold same_configuration. cbn. rewrite land_sbi_ADSC. repeat split.
  - destruct (stop_task_clears_or_not a w) as [H1|H1];
      rewrite H1 in Hstep; injection Hstep as <-.
    + split; [exact Hdone | repeat split].
    + split; [exact Hdone | apply same_configuration_refl].
  - destruct (bit_is_set (ADCSRA (regs w)) ADSC) eqn:Hb.
    + unfold exec in Hstep. rewrite (tick_busy w Hb) in Hstep. injection Hstep as <-.
      split; [exact Hdone | apply same_configuration_refl].
    + destruct (tick_ready_inv w w' Hb Hstep) as (Hregs & Hvars & _).
      destruct (before_dispatch_configuration w) as (Hcfg & Hflag & _).
      rewrite Hregs, Hvars. split; [rewrite Hflag; exact Hdone | exact Hcfg].
  - rewrite conversion_complete_spec in Hstep. injection Hstep as <-.
    destruct (bit_is_set (ADCSRA (regs w)) ADSC).
    + split; [exact Hdone|]. unfold same_configuration. cbn.
      rewrite land_cbi_ADSC. repeat split.
    + split; [exact Hdone | apply same_configuration_refl].
Qed.

(** X3: the hardware is set up once.  With [adc_tasks_initialised] set,
    [init_adc_tasks] does nothing; every [start_task] that returns leaves
    the flag set; and from then on no start, stop, tick or conversion
    clears the flag or writes a timer register or any bit of [ADCSRA]
    other than [ADSC]. *)
Theorem hardware_is_configured_once :
  (forall (w : world),
     adc_tasks_initialised (vars w) = true -> init_adc_tasks w = Some (tt, w)) /\
  (forall (this : addr) (w w' : world),
     exec (start_task this) w = Some w' -> adc_tasks_initialised (vars w') = true) /\
  (forall (ops : list op) (w w' : world),
     adc_tasks_initialised (vars w) = true ->
     run ops w = Some w' ->
     adc_tasks_initialised (vars w') = true /\
     TCCR1A (regs w') = TCCR1A (regs w) /\
     TCCR1B (regs w') = TCCR1B (regs w) /\
     TCNT1 (regs w') = TCNT1 (regs w) /\
     OCR1A (regs w') = OCR1A (regs w) /\
     TIMSK1 (regs w') = TIMSK1 (regs w) /\
     Z.land (ADCSRA (regs w')) (Z.lnot (_BV ADSC))
       = Z.land (ADCSRA (regs w)) (Z.lnot (_BV ADSC))).
Proof.
  split; [exact init_adc_tasks_done|]. split.
  - intros this w w' Hstart.
    destruct (heap w !! this) as [t|] eqn:Hl;
      [|rewrite (start_task_dangling this w Hl) in Hstart; discriminate Hstart].
    destruct (start_task_spec this w t Hl) as (w1 & H1 & Hv & _).
    rewrite H1 in Hstart. injection Hstart as <-. rewrite Hv. reflexivity.
  - intros ops. induction ops as [|o rest IH]; intros w w' Hdone Hrun; simpl in Hrun.
    + injection Hrun as <-. split; [exact Hdone|]. repeat split.
    + destruct (exec (step process_sample o) w) as [w1|] eqn:Hstep; [|discriminate Hrun].
      destruct (step_configuration o w w1 Hdone Hstep) as (Hdone1 & Hcfg1).
      destruct (IH w1 w' Hdone1 Hrun) as (Hdone2 & Hcfg2).
      split; [exact Hdone2|].
      exact (same_configuration_trans _ _ _ Hcfg1 Hcfg2).
Qed.


(** *** The interrupt flag *)

(** X4: [start_task] returns with interrupts enabled whatever the flag was
    when it was called, and so does [stop_task] called by the registered
    task: both end with [sei()] and do not restore the flag they found.
    [stop_task] called by any other task does not touch the flag. *)
Theorem interrupts_are_enabled_not_restored :
  (forall (this : addr) (w w' : world),
     exec (start_task this) w = Some w' -> SREG_I (regs w') = true) /\
  (forall (this : addr) (w w' : world),
     exec (stop_task this) w = Some w' ->
     (current_adc_task (vars w) = Some this -> SREG_I (regs w') = true) /\
     (current_adc_task (vars w) <> Some this -> SREG_I (regs w') = SREG_I (regs w))).
Proof.
  split.
  - intros this w w' Hstart.
    destruct (heap w !! this) as [t|] eqn:Hl;
      [|rewrite (start_task_dangling this w Hl) in Hstart; discriminate Hstart].
    destruct (start_task_spec this w t Hl) as (w1 & H1 & _ & _ & _ & _ & _ & Hi & _).
    rewrite H1 in Hstart. injection Hstart as <-. exact Hi.
  - intros this w w' Hstop. split.
    + intros Hh. rewrite (stop_task_holder this w Hh) in Hstop.
      injection Hstop as <-. reflexivity.
    + intros Hs. rewrite (stop_task_stale this w Hs) in Hstop.
      injection Hstop as <-. reflexivity.
Qed.

(** *** Ticks without a new conversion *)

Lemma ticks_while_busy (n : nat) (w : world) :
  bit_is_set (ADCSRA (regs w)) ADSC = true ->
  run (repeat OpTick n) w = Some w.
Proof.
  intros Hb. induction n as [|n IH]; simpl; [reflexivity|].
  unfold exec. rewrite (tick_busy w Hb). exact IH.
Qed.

Lemma busy_after_tick (w w' : world) :
  exec isr w = Some w' -> bit_is_set (ADCSRA (regs w')) ADSC = true.
Proof.
  intros Hstep. destruct (bit_is_set (ADCSRA (regs w)) ADSC) eqn:Hb.
  - unfold exec in Hstep. rewrite (tick_busy w Hb) in Hstep.
    injection Hstep as <-. exact Hb.
  - destruct (tick_ready_inv w w' Hb Hstep) as (Hregs & _).
    rewrite Hregs. apply before_dispatch_configuration.
Qed.

(** X5: a finished conversion is dispatched once.  After one tick, any
    number of further ticks with no conversion finishing in between change
    nothing: the handler left the converter busy, so it reads no sample
    and services no task again.  When the registered task exists the
    ticks go through, and all of them together call [service] at most
    once. *)
Theorem sample_is_dispatched_once (n : nat) (w : world) :
  run (OpTick :: repeat OpTick n) w = run [OpTick] w /\
  (registration_live w ->
     exists w1,
       run (OpTick :: repeat OpTick n) w = Some w1 /\
       bit_is_set (ADCSRA (regs w1)) ADSC = true /\
       forall p, (service_count p (log w1) <= service_count p (log w) + 1)%nat).
Proof.
  assert (Heq : run (OpTick :: repeat OpTick n) w = run [OpTick] w).
  { simpl. destruct (exec isr w) as [w1|] eqn:Hstep; [|reflexivity].
    apply ticks_while_busy. exact (busy_after_tick w w1 Hstep). }
  split; [exact Heq|].
  intros Hlive. rewrite Heq.
  destruct (step_progress OpTick w Hlive) as [w1 Hstep]; [discriminate|].
  simpl in Hstep. exists w1. simpl. rewrite Hstep.
  split; [reflexivity|]. split; [exact (busy_after_tick w w1 Hstep)|].
  intros p. destruct (step_inv OpTick w w1 Hstep) as (_ & _ & _ & _ & Hle). apply Hle.
Qed.

(** X6: [start_task] leaves the converter busy, so the ticks that follow
    deliver nothing to the new task, and change nothing, until a
    conversion finishes after the start; a finished conversion that was
    waiting to be read when the task started is never dispatched. *)
Theorem no_sample_until_conversion_after_start (this : addr) (n : nat) (w : world) :
  run (OpStart this :: repeat OpTick n) w = run [OpStart this] w /\
  (is_Some (heap w !! this) ->
     exists w1,
       run (OpStart this :: repeat OpTick n) w = Some w1 /\
       active w1 this /\
       forall p, service_count p (log w1) = service_count p (log w)).
Proof.
  assert (Hbusy : forall w1, exec (start_task this) w = Some w1 ->
                             bit_is_set (ADCSRA (regs w1)) ADSC = true).
  { intros w1 Hstart.
    destruct (heap w !! this) as [t|] eqn:Hl;
      [|rewrite (start_task_dangling this w Hl) in Hstart; discriminate Hstart].
    destruct (start_task_spec this w t Hl) as (w2 & H2 & _ & _ & _ & _ & Hb & _).
    rewrite H2 in Hstart. injection Hstart as <-. exact Hb. }
  assert (Heq : run (OpStart this :: repeat OpTick n) w = run [OpStart this] w).
  { simpl. destruct (exec (start_task this) w) as [w1|] eqn:Hstart; [|reflexivity].
    apply ticks_while_busy. apply Hbusy. reflexivity. }
  split; [exact Heq|].
  intros [t Hl]. rewrite Heq.
  destruct (start_task_spec this w t Hl) as (w1 & H1 & Hv & _ & _ & _ & _ & _ & Hlog).
  exists w1. simpl. rewrite H1. split; [reflexivity|].
  split; [unfold active; rewrite Hv; reflexivity|].
  intros p. rewrite Hlog, !service_count_app.
  destruct (adc_tasks_initialised (vars w)); unfold service_count; simpl; lia.
Qed.


(** *** The destructor *)

Lemma exec_Some (c : M filter unit) (w w' : world) :
  exec c w = Some w' -> c w = Some (tt, w').
Proof.
  unfold exec. destruct (c w) as [[[] w1]|]; [|discriminate].
  intros [= ->]. reflexivity.
Qed.

Lemma adctask_dtor_spec (this : addr) (w : world) (t : adctask filter) :
  heap w !! this = Some t ->
  exists w0,
    exec (stop_task this) w = Some w0 /\
    heap w0 = heap w /\ log w0 = log w /\
    current_adc_task (vars w0) <> Some this /\
    exec (adctask_dtor this) w = Some (set_heap (delete this (heap w)) w0).
Proof.
  intros Hl.
  assert (Hstop : exists w0, exec (stop_task this) w = Some w0 /\
                             heap w0 = heap w /\ log w0 = log w /\
                             current_adc_task (vars w0) <> Some this).
  { destruct (decide (current_adc_task (vars w) = Some this)) as [Hh|Hs].
    - eexists. split; [apply stop_task_holder; exact Hh|]. simpl.
      split; [reflexivity|]. split; [reflexivity | discriminate].
    - exists w. split; [apply stop_task_stale; exact Hs|].
      split; [reflexivity|]. split; [reflexivity | exact Hs]. }
  destruct Hstop as (w0 & H0 & Hh0 & Hl0 & Hfree).
  exists w0. split; [exact H0|]. split; [exact Hh0|]. split; [exact Hl0|].
  split; [exact Hfree|].
  unfold exec, adctask_dtor, bind. rewrite (exec_Some _ _ _ H0).
  unfold load. rewrite Hh0, Hl.
  destruct (filter_ t) as [f|].
  - unfold update. rewrite Hh0, Hl. unfold release. cbn [heap set_heap].
    rewrite lookup_insert_eq. rewrite delete_insert_eq.
    destruct w0 as [r0 g0 h0 l0]; simpl in *. subst h0. reflexivity.
  - unfold ret, release. rewrite Hh0, Hl. reflexivity.
Qed.

Lemma adctask_dtor_dangling (this : addr) (w : world) :
  heap w !! this = None -> exec (adctask_dtor this) w = None.
Proof.
  intros Hl.
  destruct (stop_task_clears_or_not this w) as [H0|H0];
    unfold exec, adctask_dtor, bind; rewrite (exec_Some _ _ _ H0);
    unfold load; cbn [heap set_regs set_vars]; rewrite Hl; reflexivity.
Qed.

(** X7: the destructor of a task unregisters it if it is the registered
    task and removes the object; a displaced task's destructor leaves the
    newer registration, the channels, the registers and every other task
    as they are.  Either way the destroyed task is not registered
    afterwards, so if the registration pointed to an existing task before,
    it still does. *)
Theorem destructor_releases_the_registration (this : addr) (w : world)
    (t : adctask filter) :
  heap w !! this = Some t ->
  exists w',
    exec (adctask_dtor this) w = Some w' /\
    heap w' = delete this (heap w) /\
    log w' = log w /\
    current_adc_task (vars w') <> Some this /\
    (current_adc_task (vars w) = Some this ->
       current_adc_task (vars w') = None /\
       current_adc_pin (vars w') = current_adc_pin (vars w) /\
       next_adc_pin (vars w') = next_adc_pin (vars w)) /\
    (current_adc_task (vars w) <> Some this -> vars w' = vars w /\ regs w' = regs w) /\
    (registration_live w -> registration_live w').
Proof.
  intros Hl.
  destruct (adctask_dtor_spec this w t Hl) as (w0 & H0 & Hh0 & Hl0 & Hfree & Hd).
  eexists. split; [exact Hd|]. cbn [heap vars regs log set_heap].
  split; [reflexivity|]. split; [exact Hl0|]. split; [exact Hfree|].
  split; [|split].
  - intros Hh. rewrite (stop_task_holder this w Hh) in H0. injection H0 as <-.
    simpl. repeat split.
  - intros Hs. rewrite (stop_task_stale this w Hs) in H0. injection H0 as <-.
    split; reflexivity.
  - intros Hlive p Hp. cbn [heap vars set_heap] in Hp |- *.
    assert (Hne : p <> this) by (intros ->; apply Hfree; exact Hp).
    rewrite lookup_delete_ne by congruence.
    apply Hlive.
    destruct (decide (current_adc_task (vars w) = Some this)) as [Hh|Hs].
    + rewrite (stop_task_holder this w Hh) in H0. injection H0 as <-.
      simpl in Hp. discriminate Hp.
    + rewrite (stop_task_stale this w Hs) in H0. injection H0 as <-. exact Hp.
Qed.


(** *** What happens to a task object *)

Lemma service_object (this : addr) (sample : Z) (w : world) (t : adctask filter) :
  heap w !! this = Some t ->
  exists w' t',
    service this sample w = Some (tt, w') /\
    heap w' !! this = Some t' /\
    adc_pin_ t' = adc_pin_ t /\
    (filter_ t' = None <-> filter_ t = None) /\
    ignore_count_ t' =
      (if ignore_count_ t =? 0 then 0 else uint8 (ignore_count_ t - 1)).
Proof.
  intros Hl. destruct (Z.eq_dec (ignore_count_ t) 0) as [Hz|Hn].
  - destruct (filter_ t) as [f|] eqn:Hf.
    + eexists. eexists. split; [apply (service_forwarding _ _ _ _ _ Hl Hz Hf)|].
      cbn [heap set_heap set_log]. split; [apply lookup_insert_eq|].
      simpl. rewrite Hz. split; [reflexivity|]. split; [|reflexivity].
      split; discriminate.
    + exists w, t. split; [apply (service_dropping _ _ _ _ Hl Hz Hf)|].
      split; [exact Hl|]. rewrite Hz, Hf. repeat split.
  - eexists. eexists. split; [apply (service_counting _ _ _ _ Hl Hn)|].
    cbn [heap set_heap]. split; [apply lookup_insert_eq|].
    apply Z.eqb_neq in Hn. rewrite Hn. simpl. repeat split; auto.
Qed.

(** What one step does to the task at [p]: the pin and the presence of a
    filter stay; the countdown stays too, unless the step is a tick that
    services the task (one down, when not zero) or the task's start (set
    to [k_adc_ignore_count]). *)
Lemma step_object (o : op) (w w' : world) (p : addr) (t : adctask filter) :
  exec (step process_sample o) w = Some w' ->
  heap w !! p = Some t ->
  exists t',
    heap w' !! p = Some t' /\
    adc_pin_ t' = adc_pin_ t /\
    (filter_ t' = None <-> filter_ t = None) /\
    (ignore_count_ t' = ignore_count_ t \/
     (o = OpTick /\ current_adc_task (vars w) = Some p /\ ignore_count_ t <> 0 /\
      ignore_count_ t' = uint8 (ignore_count_ t - 1)) \/
     (o = OpStart p /\ ignore_count_ t' = k_adc_ignore_count)).
Proof.
  intros Hstep Hl.
  assert (Hsame : forall w1, heap w1 = heap w ->
            exists t', heap w1 !! p = Some t' /\ adc_pin_ t' = adc_pin_ t /\
                       (filter_ t' = None <-> filter_ t = None) /\
                       (ignore_count_ t' = ignore_count_ t \/
                        (o = OpTick /\ current_adc_task (vars w) = Some p /\
                         ignore_count_ t <> 0 /\
                         ignore_count_ t' = uint8 (ignore_count_ t - 1)) \/
                        (o = OpStart p /\ ignore_count_ t' = k_adc_ignore_count))).
  { intros w1 Hh. exists t. rewrite Hh. split; [exact Hl|]. split; [reflexivity|].
    split; [reflexivity|]. left. reflexivity. }
  destruct o as [a|a| |result]; simpl in Hstep.
  - destruct (heap w !! a) as [ta|] eqn:Hla;
      [|rewrite (start_task_dangling a w Hla) in Hstep; discriminate Hstep].
    destruct (start_task_spec a w ta Hla) as (w1 & H1 & _ & Hh & _).
    rewrite H1 in Hstep. injection Hstep as <-. rewrite Hh.
    destruct (decide (p = a)) as [->|Hne].
    + rewrite Hl in Hla. injection Hla as <-.
      eexists. split; [apply lookup_insert_eq|]. simpl.
      split; [reflexivity|]. split; [reflexivity|]. right. right.
      split; reflexivity.
    + exists t. split; [rewrite lookup_insert_ne by congruence; exact Hl|].
      split; [reflexivity|]. split; [reflexivity|]. left. reflexivity.
  - destruct (stop_task_clears_or_not a w) as [H1|H1];
      rewrite H1 in Hstep; injection Hstep as <-; apply Hsame; reflexivity.
  - destruct (bit_is_set (ADCSRA (regs w)) ADSC) eqn:Hb.
    + unfold exec in Hstep. rewrite (tick_busy w Hb) in Hstep. injection Hstep as <-.
      apply Hsame. reflexivity.
    + destruct (decide (current_adc_task (vars w) = Some p)) as [Hp|Hp].
      * unfold exec in Hstep. rewrite (tick_ready w Hb), Hp in Hstep.
        set (w0 := set_log _ _) in Hstep.
        destruct (service_object p (ADCH (regs w)) w0 t Hl)
          as (w1 & t' & Hs & Hl' & Hpin & Hflt & Hic).
        rewrite Hs in Hstep. injection Hstep as <-.
        exists t'. split; [exact Hl'|]. split; [exact Hpin|]. split; [exact Hflt|].
        destruct (Z.eqb_spec (ignore_count_ t) 0) as [Hz|Hn].
        -- left. congruence.
        -- right. left. repeat split; auto.
      * destruct (tick_ready_inv w w' Hb Hstep) as (_ & _ & Hoth & _).
        exists t. split; [rewrite (Hoth p Hp); exact Hl|].
        split; [reflexivity|]. split; [reflexivity|]. left. reflexivity.
  - rewrite conversion_complete_spec in Hstep. injection Hstep as <-.
    apply Hsame. destruct (bit_is_set (ADCSRA (regs w)) ADSC); reflexivity.
Qed.

(** X8: no step of the scheduler changes a task's pin or gives or takes
    away its filter: over any run of starts, stops, ticks and conversions
    every task that existed still exists, with the pin it was constructed
    with, and has a filter exactly if it had one. *)
Theorem pin_and_filter_presence_are_fixed (ops : list op) :
  forall (w w' : world) (p : addr) (t : adctask filter),
    run ops w = Some w' ->
    heap w !! p = Some t ->
    exists t',
      heap w' !! p = Some t' /\
      adc_pin_ t' = adc_pin_ t /\
      (filter_ t' = None <-> filter_ t = None).
Proof.
  induction ops as [|o rest IH]; intros w w' p t Hrun Hl; simpl in Hrun.
  - injection Hrun as <-. exists t. split; [exact Hl|]. split; reflexivity.
  - destruct (exec (step process_sample o) w) as [w1|] eqn:Hstep; [|discriminate Hrun].
    destruct (step_object o w w1 p t Hstep Hl) as (t1 & Hl1 & Hpin1 & Hflt1 & _).
    destruct (IH w1 w' p t1 Hrun Hl1) as (t' & Hl' & Hpin' & Hflt').
    exists t'. split; [exact Hl'|]. split; [congruence|].
    rewrite Hflt'. exact Hflt1.
Qed.

(** *** Tasks coming and going *)

Lemma lstep_inv (l : lifecycle filter) (w w' : world) :
  exec (lstep process_sample l) w = Some w' ->
  registration_live w -> countdown_armed w ->
  registration_live w' /\ countdown_armed w'.
Proof.
  intros Hstep Hlive Harmed. destruct l as [p f pin ign|p|o]; simpl in Hstep.
  - (* construction *)
    unfold exec, adctask_new in Hstep.
    destruct (heap w !! p) as [t|] eqn:Hl; [discriminate Hstep|].
    injection Hstep as <-.
    assert (Hne : forall q, current_adc_task (vars w) = Some q -> q <> p).
    { intros q Hq ->. destruct (Hlive p Hq) as [t Ht]. congruence. }
    split.
    + intros q Hq. cbn [heap vars set_heap] in Hq |- *.
      rewrite lookup_insert_ne by (intros E; apply (Hne q Hq); congruence).
      apply Hlive. exact Hq.
    + intros q t Hq Ht. cbn [heap vars set_heap] in Hq, Ht.
      rewrite lookup_insert_ne in Ht by (intros E; apply (Hne q Hq); congruence).
      apply (Harmed q t Hq Ht).
  - (* destruction *)
    destruct (heap w !! p) as [t|] eqn:Hl;
      [|rewrite (adctask_dtor_dangling p w Hl) in Hstep; discriminate Hstep].
    destruct (adctask_dtor_spec p w t Hl) as (w0 & H0 & Hh0 & _ & Hfree & Hd).
    rewrite Hd in Hstep. injection Hstep as <-.
    assert (Htask : forall q, current_adc_task (vars w0) = Some q ->
                              current_adc_task (vars w) = Some q /\ q <> p).
    { intros q Hq. split; [|intros ->; apply Hfree; exact Hq].
      destruct (stop_task_clears_or_not p w) as [H1|H1];
        rewrite H1 in H0; injection H0 as <-; [discriminate Hq | exact Hq]. }
    split.
    + intros q Hq. cbn [heap vars set_heap] in Hq |- *.
      destruct (Htask q Hq) as [Hq' Hne].
      rewrite lookup_delete_ne by congruence. apply Hlive. exact Hq'.
    + intros q tq Hq Ht. cbn [heap vars set_heap] in Hq, Ht.
      destruct (Htask q Hq) as [Hq' Hne].
      rewrite lookup_delete_ne in Ht by congruence. apply (Harmed q tq Hq' Ht).
  - (* a step of the scheduler *)
    destruct (step_inv o w w' Hstep) as (_ & Hlive' & _ & Hfr & _).
    split; [apply Hlive', Hlive|].
    intros q tq' Hq Ht'.
    destruct (heap w !! q) as [tq|] eqn:Hlq.
    + destruct (step_object o w w' q tq Hstep Hlq) as (t1 & Hl1 & _ & _ & Hic).
      rewrite Hl1 in Ht'. injection Ht' as <-.
      destruct Hic as [Hic|[(-> & Hcur & Hn & Hic)|(-> & Hic)]].
      * rewrite Hic.
        destruct (decide (current_adc_task (vars w) = Some q)) as [Hcur|Hcur];
          [apply (Harmed q tq Hcur Hlq)|].
        assert (Ho : o = OpStart q).
        { destruct o as [a|a| |result];
            try (exfalso; destruct (Hfr q) as (Hnot & _);
                 [discriminate | exact Hcur | apply Hnot; exact Hq]).
          destruct (decide (a = q)) as [->|Ha]; [reflexivity|].
          exfalso. destruct (Hfr q) as (Hnot & _);
            [intros [= E]; apply Ha; exact E | exact Hcur | apply Hnot; exact Hq]. }
        subst o. simpl in Hstep.
        destruct (start_task_spec q w tq Hlq) as (w1 & H1 & _ & Hh & _).
        rewrite H1 in Hstep. injection Hstep as <-.
        rewrite Hh, lookup_insert_eq in Hl1. injection Hl1 as <-.
        simpl in Hic. rewrite <- Hic. unfold k_adc_ignore_count. lia.
      * pose proof (Harmed q tq Hcur Hlq) as Hr. rewrite Hic.
        unfold k_adc_ignore_count in *. unfold uint8.
        rewrite Z.mod_small by lia. lia.
      * rewrite Hic. unfold k_adc_ignore_count. lia.
    + exfalso. destruct (step_inv o w w' Hstep) as (Hdom & _).
      assert (Hsome : is_Some (heap w' !! q)) by (rewrite Ht'; eexists; reflexivity).
      apply Hdom in Hsome. destruct Hsome as [x Hx]. congruence.
Qed.


Lemma lrun_inv (ls : list (lifecycle filter)) :
  forall (w w' : world),
    lrun ls w = Some w' ->
    registration_live w -> countdown_armed w ->
    registration_live w' /\ countdown_armed w'.
Proof.
  induction ls as [|l rest IH]; intros w w' Hrun Hlive Harmed; simpl in Hrun.
  - injection Hrun as <-. split; assumption.
  - destruct (exec (lstep process_sample l) w) as [w1|] eqn:Hstep; [|discriminate Hrun].
    destruct (lstep_inv l w w1 Hstep Hlive Harmed) as (Hlive1 & Harmed1).
    exact (IH w1 w' Hrun Hlive1 Harmed1).
Qed.

Lemma power_on_invariant (r : mcu) (objs : gmap addr (adctask filter)) :
  registration_live (power_on r objs) /\ countdown_armed (power_on r objs).
Proof. split; [intros p Hp | intros p t Hp]; discriminate Hp. Qed.

(** X9: the registration never dangles.  From power-on, with whatever
    tasks exist then, over any sequence of constructions, destructions,
    starts, stops, ticks and conversions that runs, the registered task,
    if there is one, exists; so the next tick goes through: the handler
    never calls [service] through a pointer to a destroyed task. *)
Theorem registration_never_dangles (r : mcu) (objs : gmap addr (adctask filter))
    (ls : list (lifecycle filter)) (w : world) :
  lrun ls (power_on r objs) = Some w ->
  (forall p, active w p -> is_Some (heap w !! p)) /\
  is_Some (exec isr w).
Proof.
  intros Hrun.
  destruct (power_on_invariant r objs) as (Hlive0 & Harmed0).
  destruct (lrun_inv ls _ _ Hrun Hlive0 Harmed0) as (Hlive & _).
  split; [exact Hlive|].
  apply (step_progress OpTick w Hlive). discriminate.
Qed.

(** X10: the handler never counts down a countdown that [start_task] did
    not set.  Tasks may be constructed with any value in the uninitialised
    [ignore_count_]; all the same, in every world reached from power-on
    the registered task's countdown is between 0 and [k_adc_ignore_count],
    so the decrement in [service] never wraps around. *)
Theorem registered_countdown_is_in_range (r : mcu) (objs : gmap addr (adctask filter))
    (ls : list (lifecycle filter)) (w : world) (p : addr) (t : adctask filter) :
  lrun ls (power_on r objs) = Some w ->
  active w p ->
  heap w !! p = Some t ->
  0 <= ignore_count_ t <= k_adc_ignore_count /\
  (ignore_count_ t <> 0 -> uint8 (ignore_count_ t - 1) = ignore_count_ t - 1).
Proof.
  intros Hrun Hp Hl.
  destruct (power_on_invariant r objs) as (Hlive0 & Harmed0).
  destruct (lrun_inv ls _ _ Hrun Hlive0 Harmed0) as (_ & Harmed).
  pose proof (Harmed p t Hp Hl) as Hr.
  split; [exact Hr|].
  intros Hn. apply uint8_pred. unfold k_adc_ignore_count in Hr. lia.
Qed.


(** *** From a start to the filter, through the handler *)

Lemma run_app (l1 l2 : list op) :
  forall w : world,
    run (l1 ++ l2) w = match run l1 w with
                       | Some w1 => run l2 w1
                       | None => None
                       end.
Proof.
  induction l1 as [|o l1 IH]; intros w; simpl; [reflexivity|].
  destruct (exec (step process_sample o) w) as [w1|]; [apply IH | reflexivity].
Qed.

Lemma serviced_cons (t : adctask filter) (s : Z) (l : list Z) :
  0 <= ignore_count_ t ->
  serviced (serviced t [s]) l = serviced t (s :: l).
Proof.
  intros Hr. unfold adctask_cpp.serviced. destruct t as [fl pin ic]. cbn [ignore_count_ filter_ adc_pin_] in *.
  destruct (Z.eq_dec ic 0) as [->|Hn].
  - simpl. f_equal.
    + destruct fl; reflexivity.
    + lia.
  - assert (Hnat : Z.to_nat ic = S (Z.to_nat (ic - 1))) by lia.
    assert (Hone : ic - Z.min ic (Z.of_nat (length [s])) = ic - 1) by (simpl; lia).
    rewrite Hone, Hnat. simpl skipn. rewrite skipn_nil. f_equal.
    + destruct fl; reflexivity.
    + simpl length. lia.
Qed.

Lemma service_serviced (this : addr) (sample : Z) (w : world) (t : adctask filter) :
  heap w !! this = Some t ->
  0 <= ignore_count_ t < 256 ->
  exists w',
    service this sample w = Some (tt, w') /\
    regs w' = regs w /\ vars w' = vars w /\
    heap w' !! this = Some (serviced t [sample]) /\
    log w' = log w ++
             forwarded_events this t (skipn (Z.to_nat (ignore_count_ t)) [sample]).
Proof.
  intros Hl Hr.
  destruct (deliver_spec this [sample] w t Hl Hr)
    as (w' & Hd & Hregs & Hvars & Hme & _ & Hlog).
  simpl in Hd. destruct (exec (service this sample) w) as [w2|] eqn:Hs; [|discriminate Hd].
  injection Hd as ->. exists w'. split; [apply exec_Some; exact Hs|].
  split; [exact Hregs|]. split; [exact Hvars|]. split; [exact Hme | exact Hlog].
Qed.

Lemma round_spec (this : addr) (result : Z -> Z) (w : world) (t : adctask filter) :
  current_adc_task (vars w) = Some this ->
  bit_is_set (ADCSRA (regs w)) ADSC = true ->
  heap w !! this = Some t ->
  0 <= ignore_count_ t < 256 ->
  let sample := uint8 (result (ADMUX (regs w))) in
  exists w',
    run [OpConversion result; OpTick] w = Some w' /\
    bit_is_set (ADCSRA (regs w')) ADSC = true /\
    current_adc_task (vars w') = Some this /\
    next_adc_pin (vars w') = next_adc_pin (vars w) /\
    current_adc_pin (vars w') = next_adc_pin (vars w) /\
    ADMUX (regs w') =
      (if next_adc_pin (vars w) =? current_adc_pin (vars w) then ADMUX (regs w)
       else admux_for (next_adc_pin (vars w))) /\
    heap w' !! this = Some (serviced t [sample]) /\
    service_count this (log w') = S (service_count this (log w)).
Proof.
  intros Htask Hbusy Hl Hr sample.
  set (w1 := set_regs (set_ADCH sample (set_ADCSRA (cbi (ADCSRA (regs w)) ADSC) (regs w))) w).
  assert (Hready : bit_is_set (ADCSRA (regs w1)) ADSC = false).
  { subst w1. simpl. apply bit_is_set_cbi. }
  pose proof (tick_ready w1 Hready) as Htick.
  assert (Htask1 : current_adc_task (vars w1) = Some this) by exact Htask.
  rewrite Htask1 in Htick.
  set (w0 := set_log _ _) in Htick.
  assert (Hl0 : heap w0 !! this = Some t) by exact Hl.
  destruct (service_serviced this (ADCH (regs w1)) w0 t Hl0 Hr)
    as (w' & Hs & Hregs & Hvars & Hme & Hlog).
  exists w'. split.
  - simpl. rewrite conversion_complete_spec, Hbusy. fold sample. fold w1.
    unfold exec. rewrite Htick, Hs. reflexivity.
  - subst w0. cbn [regs vars log set_log] in Hregs, Hvars, Hlog.
    destruct (before_dispatch_configuration w1) as (_ & _ & _ & Hb).
    split; [rewrite Hregs; exact Hb|].
    split; [rewrite Hvars, before_dispatch_task; exact Htask|].
    split; [rewrite Hvars; exact (before_dispatch_next_pin w1)|].
    split; [rewrite Hvars; exact (before_dispatch_current_pin w1)|].
    split; [rewrite Hregs; exact (before_dispatch_ADMUX w1)|].
    split; [exact Hme|].
    rewrite Hlog.
    rewrite !service_count_app, service_count_before_dispatch, service_count_forwarded.
    unfold service_count at 2. simpl. rewrite Pos.eqb_refl. simpl.
    change (log w1) with (log w). lia.
Qed.

Lemma round_samples_same (admux : Z) (results : list (Z -> Z)) :
  round_samples admux admux results = map (fun r => uint8 (r admux)) results.
Proof. destruct results; reflexivity. Qed.

Lemma rounds_spec (this : addr) (pin : Z) (results : list (Z -> Z)) :
  forall (w : world) (t : adctask filter),
    current_adc_task (vars w) = Some this ->
    next_adc_pin (vars w) = pin ->
    bit_is_set (ADCSRA (regs w)) ADSC = true ->
    heap w !! this = Some t ->
    0 <= ignore_count_ t < 256 ->
    (current_adc_pin (vars w) = pin -> ADMUX (regs w) = admux_for pin) ->
    exists w',
      run (rounds results) w = Some w' /\
      heap w' !! this =
        Some (serviced t (round_samples (ADMUX (regs w)) (admux_for pin) results)) /\
      service_count this (log w') = (service_count this (log w) + length results)%nat.
Proof.
  induction results as [|result rest IH]; intros w t Htask Hnext Hbusy Hl Hr Hmux.
  - exists w. split; [reflexivity|]. split; [|simpl; lia].
    rewrite Hl. f_equal. unfold adctask_cpp.serviced. destruct t as [fl p ic]; simpl in *.
    rewrite skipn_nil. destruct fl; simpl; f_equal; lia.
  - destruct (round_spec this result w t Htask Hbusy Hl Hr)
      as (w1 & Hrun1 & Hbusy1 & Htask1 & Hnext1 & Hcur1 & Hmux1 & Hl1 & Hcount1).
    assert (Hmux1' : ADMUX (regs w1) = admux_for pin).
    { rewrite Hmux1, Hnext.
      destruct (Z.eqb_spec pin (current_adc_pin (vars w))) as [E|E]; [|reflexivity].
      apply Hmux. symmetry. exact E. }
    destruct (IH w1 (serviced t [uint8 (result (ADMUX (regs w)))]))
      as (w' & Hrun & Hl' & Hcount).
    { exact Htask1. }
    { rewrite Hnext1. exact Hnext. }
    { exact Hbusy1. }
    { exact Hl1. }
    { unfold adctask_cpp.serviced. simpl. lia. }
    { intros _. exact Hmux1'. }
    exists w'. split; [|split].
    + change (rounds (result :: rest)) with ([OpConversion result; OpTick] ++ rounds rest).
      rewrite run_app, Hrun1. exact Hrun.
    + rewrite Hl', Hmux1', round_samples_same. f_equal.
      apply serviced_cons. lia.
    + rewrite Hcount, Hcount1. simpl. lia.
Qed.

Lemma skipn_round_samples (n : nat) (admux0 admux : Z) (results : list (Z -> Z)) :
  skipn (S n) (round_samples admux0 admux results) =
    map (fun r => uint8 (r admux)) (skipn (S n) results).
Proof.
  destruct results as [|result rest]; [reflexivity|].
  simpl. apply List.skipn_map.
Qed.

(** X11: from a start to the filter.  After [start_task], let the
    converter finish and the timer tick any number of times in turn.  The
    handler calls the task's [service] once per round, the first four
    samples do not reach the filter, and every later one does, in order;
    each of those was converted under the task's own channel setting,
    [ADMUX] = 96 + pin mod 8.  The task must have a filter, and its pin
    must differ from the current pin or be the one [ADMUX] is set to. *)
Theorem filter_receives_own_channel_after_settling (this : addr) (w : world)
    (t : adctask filter) (f : filter) (results : list (Z -> Z)) :
  heap w !! this = Some t ->
  filter_ t = Some f ->
  adc_pin_ t <> current_adc_pin (vars w) \/ ADMUX (regs w) = 96 + adc_pin_ t mod 8 ->
  exists w' t',
    run (OpStart this :: rounds results) w = Some w' /\
    heap w' !! this = Some t' /\
    filter_ t' =
      Some (fold_left process_sample
              (map (fun result => uint8 (result (96 + adc_pin_ t mod 8)))
                 (skipn 4 results)) f) /\
    service_count this (log w') = (service_count this (log w) + length results)%nat.
Proof.
  intros Hl Hf Hchan.
  destruct (admux_for_value (adc_pin_ t)) as (Hval & _).
  destruct (start_task_spec this w t Hl)
    as (w1 & H1 & Hv & Hh & Hmux & _ & Hbusy & _ & Hlog).
  set (t4 := set_ignore_count_ k_adc_ignore_count t) in *.
  destruct (rounds_spec this (adc_pin_ t) results w1 t4) as (w' & Hrun & Hl' & Hcount).
  { rewrite Hv. reflexivity. }
  { rewrite Hv. reflexivity. }
  { exact Hbusy. }
  { rewrite Hh. apply lookup_insert_eq. }
  { subst t4. simpl. unfold k_adc_ignore_count. lia. }
  { rewrite Hv, Hmux. simpl. intros Hcur.
    destruct Hchan as [Hne|Heq]; [exfalso; apply Hne; symmetry; exact Hcur|].
    rewrite Heq. symmetry. exact Hval. }
  eexists. eexists. split; [|split; [exact Hl'|split]].
  - simpl. rewrite H1. exact Hrun.
  - unfold adctask_cpp.serviced. subst t4. cbn [filter_ ignore_count_ set_ignore_count_].
    rewrite Hf. change (Z.to_nat k_adc_ignore_count) with 4%nat.
    rewrite skipn_round_samples, Hval. reflexivity.
  - rewrite Hcount. f_equal. rewrite Hlog, !service_count_app.
    destruct (adc_tasks_initialised (vars w)); unfold service_count; simpl; lia.
Qed.


(** *** The requested pin *)

Lemma step_next_pin (o : op) (w w' : world) :
  exec (step process_sample o) w = Some w' ->
  next_adc_pin (vars w') <> next_adc_pin (vars w) ->
  exists p t,
    o = OpStart p /\ heap w !! p = Some t /\ next_adc_pin (vars w') = adc_pin_ t.
Proof.
  intros Hstep Hchg. destruct o as [a|a| |result]; simpl in Hstep.
  - destruct (heap w !! a) as [t|] eqn:Hl;
      [|rewrite (start_task_dangling a w Hl) in Hstep; discriminate Hstep].
    destruct (start_task_spec a w t Hl) as (w1 & H1 & Hv & _).
    rewrite H1 in Hstep. injection Hstep as <-.
    exists a, t. split; [reflexivity|]. split; [exact Hl|]. rewrite Hv. reflexivity.
  - exfalso. destruct (stop_task_clears_or_not a w) as [H1|H1];
      rewrite H1 in Hstep; injection Hstep as <-; apply Hchg; reflexivity.
  - exfalso. destruct (bit_is_set (ADCSRA (regs w)) ADSC) eqn:Hb.
    + unfold exec in Hstep. rewrite (tick_busy w Hb) in Hstep.
      injection Hstep as <-. apply Hchg. reflexivity.
    + destruct (tick_ready_inv w w' Hb Hstep) as (_ & Hvars & _).
      apply Hchg. rewrite Hvars. apply before_dispatch_next_pin.
  - exfalso. rewrite conversion_complete_spec in Hstep. injection Hstep as <-.
    apply Hchg. destruct (bit_is_set (ADCSRA (regs w)) ADSC); reflexivity.
Qed.

(** X12: the requested pin changes only in [start_task], which sets it to
    the started task's pin.  Over a run without a start it stays what it
    was: [stop_task] in particular does not bring back the channel that
    was requested before the stopped task started, and the handler never
    writes the requested pin. *)
Theorem requested_pin_changes_only_at_start :
  (forall (o : op) (w w' : world),
     exec (step process_sample o) w = Some w' ->
     next_adc_pin (vars w') <> next_adc_pin (vars w) ->
     exists p t,
       o = OpStart p /\ heap w !! p = Some t /\ next_adc_pin (vars w') = adc_pin_ t) /\
  (forall (ops : list op) (w w' : world),
     (forall p, ~ In (OpStart p) ops) ->
     run ops w = Some w' ->
     next_adc_pin (vars w') = next_adc_pin (vars w)).
Proof.
  split; [exact step_next_pin|].
  intros ops. induction ops as [|o rest IH]; intros w w' Hno Hrun; simpl in Hrun.
  - injection Hrun as <-. reflexivity.
  - destruct (exec (step process_sample o) w) as [w1|] eqn:Hstep; [|discriminate Hrun].
    assert (H1 : next_adc_pin (vars w1) = next_adc_pin (vars w)).
    { destruct (Z.eq_dec (next_adc_pin (vars w1)) (next_adc_pin (vars w))) as [E|E];
        [exact E|].
      exfalso. destruct (step_next_pin o w w1 Hstep E) as (p & t & -> & _).
      apply (Hno p). left. reflexivity. }
    rewrite <- H1. apply IH; [|exact Hrun].
    intros p Hin. apply (Hno p). right. exact Hin.
Qed.

End adctask_proofs.

(** ** The properties at concrete worlds *)

Section adctask_examples.
Import adctask_cpp examples.

Lemma vane_ready_live : registration_live vane_ready.
Proof. intros p [= <-]. vm_compute. eexists; reflexivity. Qed.

Lemma vane_busy_live : registration_live vane_busy.
Proof. intros p [= <-]. vm_compute. eexists; reflexivity. Qed.

(** Six conversions after the vane task starts from power-on: the filter
    receives the fifth and the sixth sample only, and the first tick
    selects channel 3. *)
Example vane_settles_over_six_ticks :
  exists w',
    run record_sample
      [OpStart vane;
       OpConversion (fun _ => 11); OpTick; OpConversion (fun _ => 12); OpTick;
       OpConversion (fun _ => 13); OpTick; OpConversion (fun _ => 14); OpTick;
       OpConversion (fun _ => 15); OpTick; OpConversion (fun _ => 16); OpTick] boot
      = Some w' /\
    filter_ <$> heap w' !! vane = Some (Some [15; 16]) /\
    ADMUX (regs w') = 99 /\
    service_count vane (log w') = 6%nat /\
    service_count spare (log w') = 0%nat.
Proof.
  eexists. split; [vm_compute; reflexivity|].
  repeat split; vm_compute; reflexivity.
Qed.


Lemma one_active_task_at_a_time_witness :
  exists w1 w2,
    exec (start_task spare) vane_ready = Some w1 /\
    active w1 spare /\
    run record_sample
      [OpConversion (fun _ => 17); OpTick; OpStop vane; OpTick; OpStart spare] w1
      = Some w2 /\
    ~ active w2 vane /\
    service_count vane (log w2) = service_count vane (log vane_ready) /\
    heap w2 !! vane = heap vane_ready !! vane.
Proof.
  apply (proj2 (proj2 (one_active_task_at_a_time record_sample)) vane spare vane_ready).
  - discriminate.
  - reflexivity.
  - exact vane_ready_live.
  - vm_compute. eexists; reflexivity.
  - intros p Hin. simpl in Hin.
    destruct Hin as [H|[H|[H|[H|[H|[]]]]]]; try discriminate H.
    injection H as <-. split; [discriminate|]. vm_compute. eexists; reflexivity.
Defined.

Lemma settle_samples_are_discarded_witness :
  exists w1 w2 t2,
    exec (start_task vane) boot = Some w1 /\
    heap w1 !! vane = Some (set_ignore_count_ k_adc_ignore_count (adctask_ctor (Some []) 3 0)) /\
    deliver record_sample vane [10; 20; 30; 40; 50; 60] w1 = Some w2 /\
    log w2 = log w1 ++ map (EvProcessSample vane) (skipn 4 [10; 20; 30; 40; 50; 60]) /\
    heap w2 !! vane = Some t2 /\
    filter_ t2 = Some (fold_left record_sample (skipn 4 [10; 20; 30; 40; 50; 60]) []) /\
    ignore_count_ t2 = 4 - Z.min 4 (Z.of_nat (length [10; 20; 30; 40; 50; 60])).
Proof.
  apply (proj1 (proj2 (settle_samples_are_discarded record_sample)) vane boot).
  - reflexivity.
  - reflexivity.
Defined.

Lemma tick_order_of_operations_witness :
  exists w' rest,
    run record_sample [OpConversion (fun admux => admux + 1); OpTick] vane_busy = Some w' /\
    log w' = log vane_busy ++ EvAnalogRead (uint8 (99 + 1)) :: rest /\
    (forall p, active vane_busy p -> In (EvService p (uint8 (99 + 1))) rest) /\
    (forall p sample, In (EvService p sample) rest -> sample = uint8 (99 + 1)).
Proof.
  apply (proj2 (proj2 (tick_order_of_operations record_sample))
           (fun admux => admux + 1) vane_busy).
  - reflexivity.
  - exact vane_busy_live.
Defined.

Lemma stop_task_clears_only_own_registration_witness :
  exists w',
    exec (stop_task spare) vane_ready = Some w' /\ w' = vane_ready.
Proof.
  destruct (stop_task_clears_only_own_registration spare vane_ready)
    as (w' & Hstop & _ & Hstale & _).
  exists w'. split; [exact Hstop|]. apply Hstale. discriminate.
Defined.

Lemma tick_while_busy_does_nothing_witness :
  TIMER1_COMPA_vect record_sample vane_busy = Some (tt, vane_busy) /\
  exec (TIMER1_COMPA_vect record_sample) vane_busy = Some vane_busy /\
  run record_sample [OpTick] vane_busy = Some vane_busy.
Proof.
  apply (tick_while_busy_does_nothing record_sample vane_busy).
  reflexivity.
Defined.

Lemma null_filter_is_never_used_witness :
  (ignore_count_ (adctask_ctor (filter := list Z) None 9 0) = 0 ->
     (forall sample, service record_sample spare sample vane_ready = Some (tt, vane_ready)) /\
     (forall samples, deliver record_sample spare samples vane_ready = Some vane_ready)) /\
  (0 <= ignore_count_ (adctask_ctor (filter := list Z) None 9 0) < 256 ->
     forall samples, exists w' t',
       deliver record_sample spare samples vane_ready = Some w' /\
       log w' = log vane_ready /\ regs w' = regs vane_ready /\ vars w' = vars vane_ready /\
       heap w' !! spare = Some t' /\ filter_ t' = None).
Proof.
  apply (proj1 (null_filter_is_never_used record_sample) spare vane_ready).
  - reflexivity.
  - reflexivity.
Defined.

Lemma admux_is_written_with_pin_mod_8_witness :
  exists w',
    run record_sample [OpStart spare; OpConversion (fun _ => 128); OpTick] boot = Some w' /\
    ADMUX (regs w') = 96 + 9 mod 8 /\
    Z.land (ADMUX (regs w')) 7 = 9 mod 8.
Proof.
  apply (proj2 (admux_is_written_with_pin_mod_8 record_sample)
           mcu_reset objects [] boot spare (adctask_ctor None 9 0) (fun _ => 128)).
  - reflexivity.
  - reflexivity.
  - vm_compute. discriminate.
Defined.

(** C10 as stated fails for pin 255: 255 is also the power-on value of
    [current_adc_pin], so for a first task on pin 255 the handler sees the
    requested pin equal to the current one and never writes [ADMUX]; the
    converter stays on whatever [ADMUX] held (here 0: channel 0, reference
    and alignment bits clear), not on channel 255 mod 8 = 7. *)
Lemma pin_255_is_never_written :
  adc_pin_ (adctask_ctor (filter := list Z) None 255 0) = 255 /\
  exists w',
    run record_sample [OpStart vane; OpConversion (fun _ => 128); OpTick] boot_pin_255
      = Some w' /\
    log w' = [EvTrigger; EvTrigger; EvAnalogRead 128; EvTrigger; EvService vane 128] /\
    ADMUX (regs w') = 0 /\
    ADMUX (regs w') <> 96 + 255 mod 8 /\
    Z.land (ADMUX (regs w')) 7 <> 255 mod 8 /\
    Z.testbit (ADMUX (regs w')) 6 = false /\
    Z.testbit (ADMUX (regs w')) 5 = false.
Proof.
  split; [reflexivity|].
  eexists. split; [vm_compute; reflexivity|].
  simpl. repeat split; try reflexivity; discriminate.
Qed.


Lemma prescaler_bits_encode_the_divider_witness :
  exists w',
    init_adc_clock_prescaler 32 vane_ready = Some (tt, w') /\
    Z.land (ADCSRA (regs w')) 7 = 5.
Proof.
  destruct (prescaler_bits_encode_the_divider 32 vane_ready) as (w' & H & _ & Hk & _).
  exists w'. split; [exact H|]. apply (Hk 5); [lia | reflexivity].
Defined.

Lemma hardware_is_configured_once_witness :
  exists w',
    run record_sample
      [OpStart spare; OpConversion (fun _ => 1); OpTick; OpStop spare] vane_ready
      = Some w' /\
    adc_tasks_initialised (vars w') = true /\
    TCCR1A (regs w') = TCCR1A (regs vane_ready) /\
    TCCR1B (regs w') = TCCR1B (regs vane_ready) /\
    TCNT1 (regs w') = TCNT1 (regs vane_ready) /\
    OCR1A (regs w') = OCR1A (regs vane_ready) /\
    TIMSK1 (regs w') = TIMSK1 (regs vane_ready) /\
    Z.land (ADCSRA (regs w')) (Z.lnot (_BV ADSC))
      = Z.land (ADCSRA (regs vane_ready)) (Z.lnot (_BV ADSC)).
Proof.
  eexists. split; [vm_compute; reflexivity|].
  apply (proj2 (proj2 (hardware_is_configured_once record_sample))
           [OpStart spare; OpConversion (fun _ => 1); OpTick; OpStop spare] vane_ready).
  - reflexivity.
  - vm_compute. reflexivity.
Defined.

Lemma interrupts_are_enabled_not_restored_witness :
  exists w',
    exec (start_task vane) boot = Some w' /\
    SREG_I (regs boot) = false /\
    SREG_I (regs w') = true.
Proof.
  eexists. split; [vm_compute; reflexivity|]. split; [reflexivity|].
  apply (proj1 (interrupts_are_enabled_not_restored (filter := list Z)) vane boot).
  vm_compute. reflexivity.
Defined.

Lemma sample_is_dispatched_once_witness :
  exists w1,
    run record_sample (OpTick :: repeat OpTick 3) vane_ready = Some w1 /\
    bit_is_set (ADCSRA (regs w1)) ADSC = true /\
    forall p, (service_count p (log w1) <= service_count p (log vane_ready) + 1)%nat.
Proof.
  apply (proj2 (sample_is_dispatched_once record_sample 3 vane_ready)).
  exact vane_ready_live.
Defined.

Lemma no_sample_until_conversion_after_start_witness :
  exists w1,
    run record_sample (OpStart spare :: repeat OpTick 2) vane_ready = Some w1 /\
    active w1 spare /\
    forall p, service_count p (log w1) = service_count p (log vane_ready).
Proof.
  apply (proj2 (no_sample_until_conversion_after_start record_sample spare 2 vane_ready)).
  vm_compute. eexists; reflexivity.
Defined.

Lemma destructor_releases_the_registration_witness :
  exists w',
    exec (adctask_dtor vane) vane_ready = Some w' /\
    heap w' = delete vane (heap vane_ready) /\
    log w' = log vane_ready /\
    current_adc_task (vars w') <> Some vane /\
    (current_adc_task (vars vane_ready) = Some vane ->
       current_adc_task (vars w') = None /\
       current_adc_pin (vars w') = current_adc_pin (vars vane_ready) /\
       next_adc_pin (vars w') = next_adc_pin (vars vane_ready)) /\
    (current_adc_task (vars vane_ready) <> Some vane ->
       vars w' = vars vane_ready /\ regs w' = regs vane_ready) /\
    (registration_live vane_ready -> registration_live w').
Proof.
  apply (destructor_releases_the_registration vane vane_ready (adctask_ctor (Some []) 3 0)).
  reflexivity.
Defined.

Lemma pin_and_filter_presence_are_fixed_witness :
  exists w' t',
    run record_sample (OpStart vane :: rounds six_results) boot = Some w' /\
    heap w' !! vane = Some t' /\
    adc_pin_ t' = adc_pin_ (adctask_ctor (filter := list Z) (Some []) 3 0) /\
    (filter_ t' = None <-> filter_ (adctask_ctor (filter := list Z) (Some []) 3 0) = None).
Proof.
  assert (Hrun : exists w',
            run record_sample (OpStart vane :: rounds six_results) boot = Some w')
    by (eexists; vm_compute; reflexivity).
  destruct Hrun as [w' Hrun].
  destruct (pin_and_filter_presence_are_fixed record_sample
              (OpStart vane :: rounds six_results) boot w' vane
              (adctask_ctor (Some []) 3 0) Hrun eq_refl) as (t' & H).
  exists w', t'. split; [exact Hrun | exact H].
Defined.

Lemma registration_never_dangles_witness :
  exists w,
    lrun record_sample coming_and_going boot = Some w /\
    (forall p, active w p -> is_Some (heap w !! p)) /\
    is_Some (exec (TIMER1_COMPA_vect record_sample) w).
Proof.
  eexists. split; [vm_compute; reflexivity|].
  apply (registration_never_dangles record_sample mcu_reset objects coming_and_going).
  vm_compute. reflexivity.
Defined.

Lemma registered_countdown_is_in_range_witness :
  exists w t,
    lrun record_sample coming_and_going boot = Some w /\
    active w 4%positive /\
    heap w !! 4%positive = Some t /\
    0 <= ignore_count_ t <= k_adc_ignore_count /\
    (ignore_count_ t <> 0 -> uint8 (ignore_count_ t - 1) = ignore_count_ t - 1).
Proof.
  eexists. eexists.
  split; [vm_compute; reflexivity|]. split; [reflexivity|].
  split; [vm_compute; reflexivity|].
  eapply (registered_countdown_is_in_range record_sample mcu_reset objects
            coming_and_going).
  - vm_compute. reflexivity.
  - reflexivity.
  - vm_compute. reflexivity.
Defined.

Lemma filter_receives_own_channel_after_settling_witness :
  exists w' t',
    run record_sample (OpStart vane :: rounds six_results) boot = Some w' /\
    heap w' !! vane = Some t' /\
    filter_ t' =
      Some (fold_left record_sample
              (map (fun result : Z -> Z =>
                      uint8 (result (96 + adc_pin_ (adctask_ctor (filter := list Z)
                                                      (Some []) 3 0) mod 8)))
                 (skipn 4 six_results)) []) /\
    service_count vane (log w') = (service_count vane (log boot) + length six_results)%nat.
Proof.
  apply (filter_receives_own_channel_after_settling record_sample vane boot
           (adctask_ctor (Some []) 3 0) [] six_results).
  - reflexivity.
  - reflexivity.
  - left. vm_compute. discriminate.
Defined.

Lemma requested_pin_changes_only_at_start_witness :
  exists w',
    run record_sample [OpStop vane; OpConversion (fun _ => 1); OpTick] vane_busy = Some w' /\
    next_adc_pin (vars w') = next_adc_pin (vars vane_busy).
Proof.
  assert (Hrun : exists w',
            run record_sample [OpStop vane; OpConversion (fun _ => 1); OpTick]
              vane_busy = Some w')
    by (eexists; vm_compute; reflexivity).
  destruct Hrun as [w' Hrun]. exists w'.
  split; [exact Hrun|].
  apply (proj2 (requested_pin_changes_only_at_start record_sample)
           [OpStop vane; OpConversion (fun _ => 1); OpTick] vane_busy w').
  - intros p [H|[H|[H|[]]]]; discriminate H.
  - exact Hrun.
Defined.


End adctask_examples.
